(** * Template design editor backend (main.py): model and properties

    The backend keeps three flat directories.  Template images are
    enumerated with [glob], previews are resized copies written at start-up,
    and designs and exports are files written into one designs directory.

    Modelling conventions.
    - A Python [str] and a Python [bytes] are both a [string] of 8-bit
      characters; the characters above 127 stand for the code points
      U+0080 to U+00FF, and the UTF-8 layer of a text file is the identity.
    - A directory tree is a finite map from the path string handed to
      [open] to the file content.  [open(path, "w")] creates or truncates
      and always succeeds: permissions, missing parent directories and the
      resolution of [".."] and links belong to the operating system.
    - A JSON number is an integer; the float literals of JSON have no value
      in [json] and the decoder rejects them.
    - An exception is a value of [exn]; a handler that fails returns
      [Raise e] and leaves the store as the code leaves it.
    - The randomness of [uuid.uuid4] is an argument of the handler.
    - The library functions follow CPython 3.11 ([json], [base64],
      [binascii], [uuid], [glob], [posixpath]) and Pillow ([Image.resize],
      [Image.save]); pixels are not modelled. *)

From Stdlib Require Import ZArith NArith Lia Ascii String List Bool.
From Stdlib Require Import DecimalFacts DecimalPos DecimalZ SpecFloat.
From stdpp Require Import gmap strings list.

Local Open Scope Z_scope.
Set Warnings "-register-all".

(** ** Results of fallible handlers *)

Inductive exn : Type :=
  | HTTPException (status_code : Z) (detail : string)
  | ValueError
  | ZeroDivisionError
  | JSONDecodeError
  | BinasciiError
  | OSError.

Inductive result (A : Type) : Type :=
  | Ok (a : A)
  | Raise (e : exn).
Arguments Ok {A} a.
Arguments Raise {A} e.

#[export] Instance result_ret : MRet result := fun A a => Ok a.
#[export] Instance result_bind : MBind result := fun A B k r =>
  match r with
  | Ok a => k a
  | Raise e => Raise e
  end.

(** ** Python string operations used by main.py *)

Module Py.

(** [s.startswith(p)] *)
Fixpoint startswith (p s : string) : bool :=
  match p, s with
  | EmptyString, _ => true
  | String a p', String b s' => Ascii.eqb a b && startswith p' s'
  | String _ _, EmptyString => false
  end.

(** [s.endswith(p)] *)
Fixpoint endswith (p s : string) : bool :=
  match s with
  | EmptyString => String.eqb p EmptyString
  | String _ s' => String.eqb p s || endswith p s'
  end.

(** [s.split(sep, 1)]: the text before the first [sep] and the text after
    it, or [None] when [sep] does not occur (a one-element list). *)
Fixpoint split_once (sep : ascii) (s : string) : option (string * string) :=
  match s with
  | EmptyString => None
  | String c s' =>
      if Ascii.eqb c sep then Some (EmptyString, s')
      else match split_once sep s' with
           | Some (a, b) => Some (String c a, b)
           | None => None
           end
  end.

(** [s.split(sep)[0]]: the text before the first [sep], all of [s] when
    there is none. *)
Fixpoint split_head (sep : ascii) (s : string) : string :=
  match s with
  | EmptyString => EmptyString
  | String c s' =>
      if Ascii.eqb c sep then EmptyString else String c (split_head sep s')
  end.

(** [s[:n]] *)
Fixpoint take (n : nat) (s : string) : string :=
  match n, s with
  | S n', String c s' => String c (take n' s')
  | _, _ => EmptyString
  end.

(** [bool(s)]: a string is truthy when it is not empty. *)
Definition truthy (s : string) : bool :=
  match s with
  | EmptyString => false
  | String _ _ => true
  end.

(** [x or d] for an optional string [x] ([None] and [""] are falsy). *)
Definition or_else (x : option string) (d : string) : string :=
  match x with
  | Some s => if truthy s then s else d
  | None => d
  end.

(** [os.path.basename(p)]: the text after the last slash. *)
Fixpoint basename (p : string) : string :=
  match p with
  | EmptyString => EmptyString
  | String c p' =>
      if existsb (Ascii.eqb "/"%char) (list_ascii_of_string p')
      then basename p'
      else if Ascii.eqb c "/"%char then p' else p
  end.

(** The text before the last [c], when [c] occurs. *)
Fixpoint before_last (c : ascii) (s : string) : option string :=
  match s with
  | EmptyString => None
  | String x s' =>
      match before_last c s' with
      | Some r => Some (String x r)
      | None => if Ascii.eqb x c then Some EmptyString else None
      end
  end.

(** [os.path.splitext(name)[0]] for a name without a directory part: the
    last dot starts the extension unless only dots come before it. *)
Fixpoint splitext_root (name : string) : string :=
  match name with
  | EmptyString => EmptyString
  | String x s' =>
      if Ascii.eqb x "." then String x (splitext_root s')
      else match before_last "." name with
           | Some r => r
           | None => name
           end
  end.

(** [s.replace(a, b)] for single characters. *)
Fixpoint replace (a b : ascii) (s : string) : string :=
  match s with
  | EmptyString => EmptyString
  | String x s' => String (if Ascii.eqb x a then b else x) (replace a b s')
  end.

Definition is_lower (c : ascii) : bool :=
  let n := N_of_ascii c in ((97 <=? n) && (n <=? 122))%N.
Definition is_upper (c : ascii) : bool :=
  let n := N_of_ascii c in ((65 <=? n) && (n <=? 90))%N.
Definition upper (c : ascii) : ascii :=
  if is_lower c then ascii_of_N (N_of_ascii c - 32) else c.
Definition lower (c : ascii) : ascii :=
  if is_upper c then ascii_of_N (N_of_ascii c + 32) else c.

(** [s.title()] on ASCII letters. *)
Fixpoint title_from (prev_cased : bool) (s : string) : string :=
  match s with
  | EmptyString => EmptyString
  | String x s' =>
      String (if prev_cased then lower x else upper x)
             (title_from (is_lower x || is_upper x) s')
  end.
Definition title (s : string) : string := title_from false s.

(** [os.path.join(a, b)] on POSIX. *)
Definition path_join (a b : string) : string :=
  if startswith "/" b then b
  else if String.eqb a "" || endswith "/" a then a +:+ b
  else a +:+ "/" +:+ b.

End Py.

(** ** Identifiers: [uuid.uuid4().hex] *)

Definition hex_digit (n : N) : ascii :=
  if (n <? 10)%N then ascii_of_N (48 + n) else ascii_of_N (87 + n).

(** ['%0kx' % n] for a number below [16^k]. *)
Fixpoint hex_fixed (k : nat) (n : N) : string :=
  match k with
  | O => EmptyString
  | S k' => hex_fixed k' (n / 16)%N +:+ String (hex_digit (n mod 16)%N) EmptyString
  end.

(** [uuid.uuid4()] on the 16 bytes [r] drawn from [os.urandom], read as a
    big-endian number: the variant and version fields are forced. *)
Definition uuid4 (r : N) : N :=
  let i := (r mod 2 ^ 128)%N in
  let i := N.ldiff i (N.shiftl 0xc000 48) in
  let i := N.lor i (N.shiftl 0x8000 48) in
  let i := N.ldiff i (N.shiftl 0xf000 64) in
  N.lor i (N.shiftl 4 76).

Definition uuid_hex (u : N) : string := hex_fixed 32 u.

(** ** JSON values, [json.dump(obj, f, indent=2)] and [json.load(f)] *)

(** A Python [dict] keeps insertion order and has no two equal keys; it is
    an association list, and [wf_json] states that keys are distinct. *)
Inductive json : Type :=
  | JNull
  | JBool (b : bool)
  | JInt (n : Z)
  | JStr (s : string)
  | JList (l : list json)
  | JDict (kvs : list (string * json)).

Fixpoint wf_json (v : json) : bool :=
  match v with
  | JList l => forallb wf_json l
  | JDict kvs =>
      bool_decide (NoDup (map fst kvs)) && forallb (fun kv => wf_json (snd kv)) kvs
  | _ => true
  end.

(** [d[k] = v] *)
Fixpoint dict_set (k : string) (v : json) (d : list (string * json)) : list (string * json) :=
  match d with
  | [] => [(k, v)]
  | (k', v') :: d' =>
      if String.eqb k k' then (k', v) :: d' else (k', v') :: dict_set k v d'
  end.

(** [dict(pairs)] *)
Definition dict_of_pairs (pairs : list (string * json)) : list (string * json) :=
  fold_left (fun d kv => dict_set (fst kv) (snd kv) d) pairs [].

(** [d.get(k)] *)
Fixpoint dict_get (k : string) (d : list (string * json)) : option json :=
  match d with
  | [] => None
  | (k', v) :: d' => if String.eqb k k' then Some v else dict_get k d'
  end.

(** [doc[k]] for a parsed document. *)
Definition field (k : string) (doc : json) : option json :=
  match doc with
  | JDict kvs => dict_get k kvs
  | _ => None
  end.

Module Json.

Definition nl : ascii := "010"%char.

Fixpoint indent (level : nat) (rest : string) : string :=
  match level with
  | O => rest
  | S l => String " " (String " " (indent l rest))
  end.

Definition newline_indent (level : nat) (rest : string) : string :=
  String nl (indent level rest).

(** [int.__repr__] *)
Fixpoint emit_uint (d : Decimal.uint) (rest : string) : string :=
  match d with
  | Decimal.Nil => rest
  | Decimal.D0 d => String "0" (emit_uint d rest)
  | Decimal.D1 d => String "1" (emit_uint d rest)
  | Decimal.D2 d => String "2" (emit_uint d rest)
  | Decimal.D3 d => String "3" (emit_uint d rest)
  | Decimal.D4 d => String "4" (emit_uint d rest)
  | Decimal.D5 d => String "5" (emit_uint d rest)
  | Decimal.D6 d => String "6" (emit_uint d rest)
  | Decimal.D7 d => String "7" (emit_uint d rest)
  | Decimal.D8 d => String "8" (emit_uint d rest)
  | Decimal.D9 d => String "9" (emit_uint d rest)
  end.

Definition emit_int (n : Z) (rest : string) : string :=
  match Z.to_int n with
  | Decimal.Pos d => emit_uint d rest
  | Decimal.Neg d => String "-" (emit_uint d rest)
  end.

(** [encode_basestring_ascii]: the characters outside [' '..'~'], the
    quote and the backslash are escaped. *)
Definition emit_char (c : ascii) (rest : string) : string :=
  let n := N_of_ascii c in
  if Ascii.eqb c "034" then String "092" (String "034" rest)
  else if Ascii.eqb c "092" then String "092" (String "092" rest)
  else if Ascii.eqb c "010" then String "092" (String "n" rest)
  else if Ascii.eqb c "013" then String "092" (String "r" rest)
  else if Ascii.eqb c "009" then String "092" (String "t" rest)
  else if Ascii.eqb c "008" then String "092" (String "b" rest)
  else if Ascii.eqb c "012" then String "092" (String "f" rest)
  else if ((32 <=? n) && (n <=? 126))%N then String c rest
  else String "092" (String "u" (hex_fixed 4 n +:+ rest)).

Fixpoint emit_chars (s : string) (rest : string) : string :=
  match s with
  | EmptyString => rest
  | String c s' => emit_char c (emit_chars s' rest)
  end.

Definition emit_str (s : string) (rest : string) : string :=
  String "034" (emit_chars s (String "034" rest)).

(** [_iterencode] at nesting depth [level], followed by [rest]. *)
Fixpoint emit (level : nat) (v : json) (rest : string) : string :=
  match v with
  | JNull => "null" +:+ rest
  | JBool true => "true" +:+ rest
  | JBool false => "false" +:+ rest
  | JInt n => emit_int n rest
  | JStr s => emit_str s rest
  | JList [] => "[]" +:+ rest
  | JList (x :: xs) =>
      String "["
        (newline_indent (S level)
           (emit (S level) x
              ((fix items (l : list json) : string :=
                  match l with
                  | [] => newline_indent level (String "]" rest)
                  | y :: l' =>
                      String "," (newline_indent (S level) (emit (S level) y (items l')))
                  end) xs)))
  | JDict [] => "{}" +:+ rest
  | JDict ((k, x) :: kvs) =>
      String "{"
        (newline_indent (S level)
           (emit_str k
              (String ":" (String " "
                 (emit (S level) x
                    ((fix members (l : list (string * json)) : string :=
                        match l with
                        | [] => newline_indent level (String "}" rest)
                        | (k', y) :: l' =>
                            String ","
                              (newline_indent (S level)
                                 (emit_str k'
                                    (String ":" (String " "
                                       (emit (S level) y (members l'))))))
                        end) kvs))))))
  end.

(** [json.dumps(obj, indent=2)] *)
Definition dumps (v : json) : string := emit 0 v "".

(** *** The decoder *)

Definition is_ws (c : ascii) : bool :=
  Ascii.eqb c " " || Ascii.eqb c "009" || Ascii.eqb c "010" || Ascii.eqb c "013".

Fixpoint skip_ws (s : string) : string :=
  match s with
  | EmptyString => EmptyString
  | String c s' => if is_ws c then skip_ws s' else s
  end.

Definition digit_val (c : ascii) : option Z :=
  let n := Z.of_N (N_of_ascii c) in
  if (48 <=? n) && (n <=? 57) then Some (n - 48) else None.

Definition is_digit (c : ascii) : bool :=
  match digit_val c with Some _ => true | None => false end.

Definition hex_val (c : ascii) : option N :=
  let n := N_of_ascii c in
  if ((48 <=? n) && (n <=? 57))%N then Some (n - 48)%N
  else if ((97 <=? n) && (n <=? 102))%N then Some (n - 87)%N
  else if ((65 <=? n) && (n <=? 70))%N then Some (n - 55)%N
  else None.

Definition hex4 (a b c d : ascii) : option N :=
  match hex_val a, hex_val b, hex_val c, hex_val d with
  | Some x, Some y, Some z, Some w => Some (((x * 16 + y) * 16 + z) * 16 + w)%N
  | _, _, _, _ => None
  end.

(** The [BACKSLASH] table of the decoder. *)
Definition unescape (e : ascii) : option ascii :=
  if Ascii.eqb e "034" then Some "034"%char
  else if Ascii.eqb e "092" then Some "092"%char
  else if Ascii.eqb e "/" then Some "/"%char
  else if Ascii.eqb e "b" then Some "008"%char
  else if Ascii.eqb e "f" then Some "012"%char
  else if Ascii.eqb e "n" then Some "010"%char
  else if Ascii.eqb e "r" then Some "013"%char
  else if Ascii.eqb e "t" then Some "009"%char
  else None.

Definition push (c : ascii) (r : option (string * string)) : option (string * string) :=
  match r with
  | Some (str, rest) => Some (String c str, rest)
  | None => None
  end.

(** [scanstring] in strict mode, after the opening quote: the text of the
    literal and what follows its closing quote.  An escape that names a
    code point above 255 has no value in the 8-bit alphabet. *)
Fixpoint scan_string (s : string) : option (string * string) :=
  match s with
  | EmptyString => None
  | String c s' =>
      if Ascii.eqb c "034" then Some (EmptyString, s')
      else if Ascii.eqb c "092" then
        match s' with
        | EmptyString => None
        | String e s'' =>
            if Ascii.eqb e "u" then
              match s'' with
              | String h1 (String h2 (String h3 (String h4 s3))) =>
                  match hex4 h1 h2 h3 h4 with
                  | Some n =>
                      if (n <? 256)%N then push (ascii_of_N n) (scan_string s3)
                      else None
                  | None => None
                  end
              | _ => None
              end
            else
              match unescape e with
              | Some ch => push ch (scan_string s'')
              | None => None
              end
        end
      else if (N_of_ascii c <? 32)%N then None
      else push c (scan_string s')
  end.

Fixpoint scan_digits (acc : Z) (s : string) : Z * string :=
  match s with
  | EmptyString => (acc, EmptyString)
  | String c s' =>
      match digit_val c with
      | Some d => scan_digits (acc * 10 + d) s'
      | None => (acc, s)
      end
  end.

(** The integer part [0|[1-9][0-9]*] of [NUMBER_RE]. *)
Definition scan_nat (s : string) : option (Z * string) :=
  match s with
  | EmptyString => None
  | String c s' =>
      if Ascii.eqb c "0" then Some (0, s')
      else match digit_val c with
           | Some d => Some (scan_digits d s')
           | None => None
           end
  end.

(** A fraction or an exponent follows: the literal is a float, for which
    [json] has no value. *)
Definition is_float_tail (s : string) : bool :=
  match s with
  | String c (String d r) =>
      if Ascii.eqb c "." then is_digit d
      else if Ascii.eqb c "e" || Ascii.eqb c "E" then
        if is_digit d then true
        else if Ascii.eqb d "+" || Ascii.eqb d "-" then
          match r with
          | String d' _ => is_digit d'
          | EmptyString => false
          end
        else false
      else false
  | _ => false
  end.

Definition scan_number (s : string) : option (Z * string) :=
  match s with
  | String c s' =>
      if Ascii.eqb c "-" then
        match scan_nat s' with
        | Some (n, r) => if is_float_tail r then None else Some (- n, r)
        | None => None
        end
      else
        match scan_nat s with
        | Some (n, r) => if is_float_tail r then None else Some (n, r)
        | None => None
        end
  | EmptyString => None
  end.

Fixpoint strip_prefix (p s : string) : option string :=
  match p, s with
  | EmptyString, _ => Some s
  | String a p', String b s' => if Ascii.eqb a b then strip_prefix p' s' else None
  | String _ _, EmptyString => None
  end.

(** [scan_once], [JSONArray] and [JSONObject]; every call spends one unit
    of [fuel], and a text of [n] characters needs at most [n] calls. *)
Fixpoint scan_once (fuel : nat) (s : string) : option (json * string) :=
  match fuel with
  | O => None
  | S fuel' =>
      match s with
      | EmptyString => None
      | String c s' =>
          if Ascii.eqb c "034" then
            match scan_string s' with
            | Some (str, r) => Some (JStr str, r)
            | None => None
            end
          else if Ascii.eqb c "{" then
            match skip_ws s' with
            | String c' r =>
                if Ascii.eqb c' "}" then Some (JDict [], r)
                else match scan_members fuel' (String c' r) with
                     | Some (pairs, r') => Some (JDict (dict_of_pairs pairs), r')
                     | None => None
                     end
            | EmptyString => None
            end
          else if Ascii.eqb c "[" then
            match skip_ws s' with
            | String c' r =>
                if Ascii.eqb c' "]" then Some (JList [], r)
                else match scan_elements fuel' (String c' r) with
                     | Some (vs, r') => Some (JList vs, r')
                     | None => None
                     end
            | EmptyString => None
            end
          else if Ascii.eqb c "n" then
            match strip_prefix "null" s with
            | Some r => Some (JNull, r)
            | None => None
            end
          else if Ascii.eqb c "t" then
            match strip_prefix "true" s with
            | Some r => Some (JBool true, r)
            | None => None
            end
          else if Ascii.eqb c "f" then
            match strip_prefix "false" s with
            | Some r => Some (JBool false, r)
            | None => None
            end
          else
            match scan_number s with
            | Some (n, r) => Some (JInt n, r)
            | None => None
            end
      end
  end
with scan_elements (fuel : nat) (s : string) : option (list json * string) :=
  match fuel with
  | O => None
  | S fuel' =>
      match scan_once fuel' s with
      | Some (v, r) =>
          match skip_ws r with
          | String c r' =>
              if Ascii.eqb c "]" then Some ([v], r')
              else if Ascii.eqb c "," then
                match scan_elements fuel' (skip_ws r') with
                | Some (vs, r'') => Some (v :: vs, r'')
                | None => None
                end
              else None
          | EmptyString => None
          end
      | None => None
      end
  end
with scan_members (fuel : nat) (s : string) : option (list (string * json) * string) :=
  match fuel with
  | O => None
  | S fuel' =>
      match s with
      | String q s' =>
          if Ascii.eqb q "034" then
            match scan_string s' with
            | Some (k, r) =>
                match skip_ws r with
                | String c r1 =>
                    if Ascii.eqb c ":" then
                      match scan_once fuel' (skip_ws r1) with
                      | Some (v, r2) =>
                          match skip_ws r2 with
                          | String c' r3 =>
                              if Ascii.eqb c' "}" then Some ([(k, v)], r3)
                              else if Ascii.eqb c' "," then
                                match scan_members fuel' (skip_ws r3) with
                                | Some (kvs, r4) => Some ((k, v) :: kvs, r4)
                                | None => None
                                end
                              else None
                          | EmptyString => None
                          end
                      | None => None
                      end
                    else None
                | EmptyString => None
                end
            | None => None
            end
          else None
      | EmptyString => None
      end
  end.

(** [json.loads(s)]: one value between optional white space. *)
Definition loads (s : string) : option json :=
  match scan_once (S (String.length s)) (skip_ws s) with
  | Some (v, r) =>
      match skip_ws r with
      | EmptyString => Some v
      | String _ _ => None
      end
  | None => None
  end.

(** *** Vocabulary of the round-trip proof *)

(** The text starts a value: its first character is neither white space
    nor a closing bracket. *)
Definition starts_value (s : string) : bool :=
  match s with
  | EmptyString => false
  | String c _ => negb (is_ws c) && negb (Ascii.eqb c "]") && negb (Ascii.eqb c "}")
  end.

(** The text cannot continue a number literal. *)
Definition ends_number (s : string) : bool :=
  match s with
  | EmptyString => true
  | String c _ =>
      negb (is_digit c) && negb (Ascii.eqb c ".")
      && negb (Ascii.eqb c "e") && negb (Ascii.eqb c "E")
  end.

(** The text [emit] writes after the first element of a list and after
    the first member of a dict. *)
Fixpoint emit_items (level : nat) (l : list json) (rest : string) : string :=
  match l with
  | [] => newline_indent level (String "]" rest)
  | y :: l' =>
      String "," (newline_indent (S level) (emit (S level) y (emit_items level l' rest)))
  end.

Fixpoint emit_members (level : nat) (l : list (string * json)) (rest : string) : string :=
  match l with
  | [] => newline_indent level (String "}" rest)
  | (k, y) :: l' =>
      String ","
        (newline_indent (S level)
           (emit_str k (String ":" (String " "
              (emit (S level) y (emit_members level l' rest))))))
  end.

(** The calls [scan_once] makes on the text of a value. *)
Fixpoint jsize (v : json) : nat :=
  match v with
  | JList l => S (list_sum (map (fun x => S (jsize x)) l))
  | JDict kvs => S (list_sum (map (fun kv => S (jsize (snd kv))) kvs))
  | _ => 1
  end.

Definition elems_size (l : list json) : nat :=
  list_sum (map (fun x => S (jsize x)) l).
Definition members_size (l : list (string * json)) : nat :=
  list_sum (map (fun kv => S (jsize (snd kv))) l).

End Json.

(** ** Base64: [base64.b64decode] and the standard encoding *)

Module Base64.

(** [table_b2a_base64] *)
Definition b2a (n : N) : ascii :=
  if (n <? 26)%N then ascii_of_N (65 + n)
  else if (n <? 52)%N then ascii_of_N (71 + n)
  else if (n <? 62)%N then ascii_of_N (n - 4)
  else if (n =? 62)%N then "+"%char
  else "/"%char.

(** [table_a2b_base64]; [None] stands for the entries that are not below 64. *)
Definition a2b (c : ascii) : option N :=
  let n := N_of_ascii c in
  if ((65 <=? n) && (n <=? 90))%N then Some (n - 65)%N
  else if ((97 <=? n) && (n <=? 122))%N then Some (n - 71)%N
  else if ((48 <=? n) && (n <=? 57))%N then Some (n + 4)%N
  else if (n =? 43)%N then Some 62%N
  else if (n =? 47)%N then Some 63%N
  else None.

(** A value stored into an [unsigned char]. *)
Definition uchar (n : N) : ascii := ascii_of_N (N.land n 255).

Definition push (c : ascii) (r : option string) : option string :=
  match r with
  | Some out => Some (String c out)
  | None => None
  end.

(** The loop of [binascii.a2b_base64] with [strict_mode] off.  [None] is
    [binascii.Error]; the characters outside the alphabet are skipped, and
    a complete pad sequence ends the decoding. *)
Fixpoint a2b_loop (s : string) (quad_pos : N) (leftchar : N) (pads : N) : option string :=
  match s with
  | EmptyString => if (quad_pos =? 0)%N then Some EmptyString else None
  | String c s' =>
      if Ascii.eqb c "=" then
        if (2 <=? quad_pos)%N then
          if (4 <=? quad_pos + (pads + 1))%N then Some EmptyString
          else a2b_loop s' quad_pos leftchar (pads + 1)%N
        else a2b_loop s' quad_pos leftchar pads
      else
        match a2b c with
        | None => a2b_loop s' quad_pos leftchar pads
        | Some this_ch =>
            if (quad_pos =? 0)%N then a2b_loop s' 1%N this_ch 0%N
            else if (quad_pos =? 1)%N then
              push (uchar (N.lor (N.shiftl leftchar 2) (N.shiftr this_ch 4)))
                   (a2b_loop s' 2%N (N.land this_ch 15) 0%N)
            else if (quad_pos =? 2)%N then
              push (uchar (N.lor (N.shiftl leftchar 4) (N.shiftr this_ch 2)))
                   (a2b_loop s' 3%N (N.land this_ch 3) 0%N)
            else
              push (uchar (N.lor (N.shiftl leftchar 6) this_ch))
                   (a2b_loop s' 0%N 0%N 0%N)
        end
  end.

Definition is_ascii (s : string) : bool :=
  forallb (fun c => (N_of_ascii c <? 128)%N) (list_ascii_of_string s).

(** [base64.b64decode(s)] on a [str]: the text must be ASCII. *)
Definition b64decode (s : string) : result string :=
  if is_ascii s then
    match a2b_loop s 0%N 0%N 0%N with
    | Some data => Ok data
    | None => Raise BinasciiError
    end
  else Raise ValueError.

(** The standard encoding with padding (RFC 4648), as a client produces it. *)
Fixpoint b64encode (bs : string) : string :=
  match bs with
  | EmptyString => EmptyString
  | String x EmptyString =>
      let a := N_of_ascii x in
      String (b2a (N.shiftr a 2))
        (String (b2a (N.shiftl (N.land a 3) 4)) "==")
  | String x (String y EmptyString) =>
      let a := N_of_ascii x in
      let b := N_of_ascii y in
      String (b2a (N.shiftr a 2))
        (String (b2a (N.lor (N.shiftl (N.land a 3) 4) (N.shiftr b 4)))
           (String (b2a (N.shiftl (N.land b 15) 2)) "="))
  | String x (String y (String z r)) =>
      let a := N_of_ascii x in
      let b := N_of_ascii y in
      let c := N_of_ascii z in
      String (b2a (N.shiftr a 2))
        (String (b2a (N.lor (N.shiftl (N.land a 3) 4) (N.shiftr b 4)))
           (String (b2a (N.lor (N.shiftl (N.land b 15) 2) (N.shiftr c 6)))
              (String (b2a (N.land c 63)) (b64encode r))))
  end.

(** *** Vocabulary of the round-trip proof *)

(** The four sextets of the group [a b c]. *)
Definition sx1 (a : N) : N := N.shiftr a 2.
Definition sx2 (a b : N) : N := N.lor (N.shiftl (N.land a 3) 4) (N.shiftr b 4).
Definition sx3 (b c : N) : N := N.lor (N.shiftl (N.land b 15) 2) (N.shiftr c 6).
Definition sx4 (c : N) : N := N.land c 63.

Definition sextet_ok (n : N) : bool :=
  match a2b (b2a n) with
  | Some m => (m =? n)%N
  | None => false
  end && negb (Ascii.eqb (b2a n) "=").

Definition pair_ok (a b : N) : bool :=
  (sx1 a <? 64)%N && (sx2 a b <? 64)%N && (sx3 a b <? 64)%N && (sx4 a <? 64)%N
  && (N.land (N.lor (N.shiftl (sx1 a) 2) (N.shiftr (sx2 a b) 4)) 255 =? a)%N
  && (N.land (sx2 a b) 15 =? N.shiftr b 4)%N
  && (N.land (N.lor (N.shiftl (N.shiftr a 4) 4) (N.shiftr (sx3 a b) 2)) 255 =? a)%N
  && (N.land (N.lor (N.shiftl (N.land (sx3 a b) 3) 6) (sx4 b)) 255 =? b)%N.

End Base64.

(** ** The design store: [save_design], [get_design], [export_image] *)

Record SavePayload : Type := {
  design_id : option string;
  template_id : string;
  design_json : list (string * json)
}.

Section Store.

(** [DESIGNS_DIR], fixed when the module is loaded. *)
Variable DESIGNS_DIR : string.

Definition design_path (id : string) : string :=
  Py.path_join DESIGNS_DIR (id +:+ ".json").

Definition design_doc (id : string) (payload : SavePayload) : json :=
  JDict [("design_id", JStr id);
         ("template_id", JStr (template_id payload));
         ("design", JDict (design_json payload))].

(** [POST /save] (main.py, lines 121-127); [r] is the randomness [uuid4]
    draws. *)
Definition save_design (payload : SavePayload) (r : N) (fs : gmap string string)
  : result json * gmap string string :=
  let id := Py.or_else (design_id payload)
              ("design_" +:+ Py.take 12 (uuid_hex (uuid4 r))) in
  let path := design_path id in
  (Ok (JDict [("status", JStr "ok"); ("design_id", JStr id)]),
   <[path := Json.dumps (design_doc id payload)]> fs).

(** [GET /design/{design_id}] (lines 129-135) *)
Definition get_design (id : string) (fs : gmap string string)
  : result json * gmap string string :=
  let path := design_path id in
  match fs !! path with
  | None => (Raise (HTTPException 404 "Design not found"), fs)
  | Some text =>
      match Json.loads text with
      | Some doc => (Ok doc, fs)
      | None => (Raise JSONDecodeError, fs)
      end
  end.

(** The payload of [export_image] after the data-URI header is removed
    (lines 141-144); a header without a comma fails to unpack. *)
Definition strip_data_uri (image_b64 : string) : result string :=
  if Py.startswith "data:" image_b64 then
    match Py.split_once "," image_b64 with
    | Some (header, b64) => Ok b64
    | None => Raise ValueError
    end
  else Ok image_b64.

(** [POST /export] (lines 138-150) *)
Definition export_image (image_b64 : string) (filename : option string) (r : N)
    (fs : gmap string string) : result json * gmap string string :=
  match strip_data_uri image_b64 ≫= Base64.b64decode with
  | Raise e => (Raise e, fs)
  | Ok data =>
      let fname := Py.or_else filename
                     ("export_" +:+ Py.take 8 (uuid_hex (uuid4 r)) +:+ ".png") in
      let path := Py.path_join DESIGNS_DIR fname in
      (Ok (JDict [("status", JStr "ok"); ("file", JStr fname)]),
       <[path := data]> fs)
  end.

End Store.

(** ** Double-precision arithmetic of the preview height *)

Module Float.

(** A non-negative binary64 value [mant * 2 ^ expo].  The exponent range
    is not modelled: no image size comes near an overflow or a subnormal. *)
Record t : Type := { mant : Z; expo : Z }.

(** [n / d] rounded to the nearest integer, ties to even. *)
Definition rne (n d : Z) : Z :=
  let q := n / d in
  match 2 * (n mod d) ?= d with
  | Lt => q
  | Gt => q + 1
  | Eq => if Z.even q then q else q + 1
  end.

(** [n / d >= 2 ^ k] *)
Definition ge_pow2 (n d k : Z) : bool :=
  if 0 <=? k then d * 2 ^ k <=? n else d <=? n * 2 ^ (- k).

(** The exponent [e] of the last place of [n / d]:
    [2 ^ 52 <= n / (d * 2 ^ e) < 2 ^ 53]. *)
Definition ulp_exp (n d : Z) : Z :=
  let k := Z.log2 n - Z.log2 d in
  (if ge_pow2 n d k then k else k - 1) - 52.

(** The binary64 value nearest to [n / d], for [0 <= n] and [0 < d]. *)
Definition round (n d : Z) : t :=
  if n =? 0 then {| mant := 0; expo := 0 |}
  else
    let e := ulp_exp n d in
    {| mant := if 0 <=? e then rne n (d * 2 ^ e) else rne (n * 2 ^ (- e)) d;
       expo := e |}.

(** [float(n)] *)
Definition of_int (n : Z) : t := round n 1.

(** [a / b] on two [int]s: the correctly rounded quotient. *)
Definition div_int (a b : Z) : t := round a b.

(** [x * y] *)
Definition mul (x y : t) : t :=
  let m := mant x * mant y in
  let e := expo x + expo y in
  if 0 <=? e then round (m * 2 ^ e) 1 else round m (2 ^ (- e)).

(** [int(x)]: truncation. *)
Definition to_int (x : t) : Z :=
  if 0 <=? expo x then mant x * 2 ^ expo x else mant x / 2 ^ (- expo x).

End Float.

(** The same computation with the binary64 operations of the Standard
    Library's [SpecFloat], to compare the model with on sample sizes. *)
Module Binary64.

Definition prec : Z := 53.
Definition emax : Z := 1024.

Definition of_int (n : Z) : spec_float := binary_normalize prec emax n 0 false.

Definition to_int (x : spec_float) : Z :=
match x with
| S754_finite false m e => if 0 <=? e then Z.pos m * 2 ^ e else Z.pos m / 2 ^ (- e)
| _ => 0
end.

Definition height (W H : Z) : Z :=
to_int (SFmul prec emax (of_int H) (SFdiv prec emax (of_int 300) (of_int W))).

Definition model_height (W H : Z) : Z :=
Float.to_int (Float.mul (Float.of_int H) (Float.div_int 300 W)).

Definition sizes : list (Z * Z) :=
list_prod (map Z.of_nat (seq 1 48)) (map Z.of_nat (seq 0 48))
++ [(7, 21); (400, 301); (1080, 1350); (12345, 67891); (1920, 1080);
    (4000, 3000); (49, 343); (1001, 77077); (65535, 65535);
    (1, 2147483647); (2147483647, 1); (2147483647, 2147483647)].

End Binary64.

(** ** Templates: [create_template_previews] and [index] *)

(** The modes of an image that matter to the JPEG writer. *)
Inductive mode : Type := M1 | L | P | RGB | RGBA | CMYK | YCbCr | LA | I | F.

Record image : Type := { width : Z; height : Z; img_mode : mode }.

(** A file of the previews directory: a JPEG of a given size, or a file that
    a failed [save] left empty. *)
Inductive preview_file : Type :=
  | Jpeg (w h : Z) (quality : Z)
  | Truncated.

Record world : Type := {
  images : gmap string image;          (* what [Image.open] can read *)
  previews : gmap string preview_file; (* the previews directory *)
  stdout : list (string * exn)         (* the lines printed by the handlers *)
}.

Record template_entry : Type := {
  te_id : string;
  te_name : string;
  te_width : Z;
  te_height : Z;
  te_preview_url : string;
  te_image_url : string
}.

Definition action (A : Type) : Type := world -> result A * world.

(** [try: body except Exception as e: handler(e)] *)
Definition try_except {A} (body : action A) (handler : exn -> action A) : action A :=
  fun w =>
    match body w with
    | (Ok a, w') => (Ok a, w')
    | (Raise e, w') => handler e w'
    end.

(** [for x in xs: body(x)] *)
Fixpoint for_in {X} (xs : list X) (body : X -> action unit) : action unit :=
  fun w =>
    match xs with
    | [] => (Ok tt, w)
    | x :: xs' =>
        match body x w with
        | (Ok _, w') => for_in xs' body w'
        | (Raise e, w') => (Raise e, w')
        end
    end.

Definition print (line : string * exn) : action unit :=
  fun w => (Ok tt, {| images := images w; previews := previews w;
                      stdout := stdout w ++ [line] |}).

(** [preview_width, int(height * (preview_width / width))] (lines 43-45) *)
Definition preview_size (img : image) : result (Z * Z) :=
  let preview_width := 300 in
  if width img =? 0 then Raise ZeroDivisionError
  else
    Ok (preview_width,
        Float.to_int (Float.mul (Float.of_int (height img))
                                (Float.div_int preview_width (width img)))).

(** [img.resize(size, Image.LANCZOS)]: the pixels are not modelled. *)
Definition resize (img : image) (size : Z * Z) : result image :=
  if (fst size <? 1) || (snd size <? 1) then Raise ValueError
  else Ok {| width := fst size; height := snd size; img_mode := img_mode img |}.

Definition jpeg_mode (m : mode) : bool :=
  match m with
  | M1 | L | RGB | CMYK | YCbCr => true
  | _ => false
  end.

(** [preview.save(path, "JPEG", quality=q)]: a mode the writer rejects
    leaves an existing file empty and creates none. *)
Definition save_jpeg (img : image) (path : string) (q : Z) : action unit :=
  fun w =>
    if jpeg_mode (img_mode img) then
      (Ok tt, {| images := images w;
                 previews := <[path := Jpeg (width img) (height img) q]> (previews w);
                 stdout := stdout w |})
    else
      (Raise OSError,
       {| images := images w;
          previews := match previews w !! path with
                      | Some _ => <[path := Truncated]> (previews w)
                      | None => previews w
                      end;
          stdout := stdout w |}).

Definition image_open (path : string) (w : world) : result image :=
  match images w !! path with
  | Some img => Ok img
  | None => Raise OSError
  end.

(** [f"preview_{filename.split('.')[0]}.jpg"] (lines 51 and 72) *)
Definition preview_filename (filename : string) : string :=
  "preview_" +:+ Py.split_head "." filename +:+ ".jpg".

Section Templates.

Variables TEMPLATE_IMAGES_DIR PREVIEWS_DIR : string.

(** [glob.glob(os.path.join(TEMPLATE_IMAGES_DIR, "*." + ext))] over the
    directory listing [entries]: hidden names are not matched. *)
Definition glob_ext (entries : list string) (ext : string) : list string :=
  map (Py.path_join TEMPLATE_IMAGES_DIR)
      (List.filter (fun name => negb (Py.startswith "." name)
                                && Py.endswith ("." +:+ ext) name) entries).

(** The first eight matches (lines 34-37 and 64-67). *)
Definition image_files (entries : list string) : list string :=
  firstn 8 (glob_ext entries "jpg" ++ glob_ext entries "jpeg" ++ glob_ext entries "png").

(** The body of the [try] of [create_template_previews] (lines 41-53). *)
Definition make_preview (img_path : string) : action unit :=
  fun w =>
    match image_open img_path w with
    | Raise e => (Raise e, w)
    | Ok img =>
        match preview_size img ≫= resize img with
        | Raise e => (Raise e, w)
        | Ok preview =>
            let filename := Py.basename img_path in
            let preview_path := Py.path_join PREVIEWS_DIR (preview_filename filename) in
            save_jpeg preview preview_path 85 w
        end
    end.

(** The [try] statement of the loop (lines 40-55): the body and its
    handler. *)
Definition attempt (img_path : string) : action unit :=
  try_except (make_preview img_path) (fun e => print (img_path, e)).

Definition create_template_previews (entries : list string) : action unit :=
  for_in (image_files entries) attempt.

(** One entry of [template_list] (lines 71-89). *)
Definition describe (w : world) (img_path : string) : template_entry :=
  let filename := Py.basename img_path in
  let preview_path := "/previews/" +:+ preview_filename filename in
  let '(width, height) :=
    match image_open img_path w with
    | Ok img => (width img, height img)
    | Raise _ => (880, 1020)
    end in
  {| te_id := filename;
     te_name := Py.title (Py.replace "_" " " (Py.splitext_root filename));
     te_width := width;
     te_height := height;
     te_preview_url := preview_path;
     te_image_url := "/templates_images/" +:+ filename |}.

(** [GET /] (lines 62-94): the [template_list] handed to the page. *)
Definition index (entries : list string) (w : world) : list template_entry :=
  map (describe w) (image_files entries).

End Templates.

(** ** Pages: [index] with its printing, and [editor] *)

(** What [editor] hands to its page (lines 108-114). *)
Record editor_page : Type := {
  ep_template_id : string;
  ep_image_url : string;
  ep_width : Z;
  ep_height : Z
}.

(** [for x in xs: out.append(body(x))] *)
Fixpoint collect {X A} (xs : list X) (body : X -> action A) : action (list A) :=
  fun w =>
    match xs with
    | [] => (Ok [], w)
    | x :: xs' =>
        match body x w with
        | (Ok a, w') =>
            match collect xs' body w' with
            | (Ok l, w'') => (Ok (a :: l), w'')
            | (Raise e, w'') => (Raise e, w'')
            end
        | (Raise e, w') => (Raise e, w')
        end
    end.

(** [with Image.open(img_path) as img: width, height = img.size] *)
Definition image_size (img_path : string) : action (Z * Z) :=
  fun w =>
    match image_open img_path w with
    | Ok img => (Ok (width img, height img), w)
    | Raise e => (Raise e, w)
    end.

Section Pages.

Variable TEMPLATE_IMAGES_DIR : string.

(** The loop body of [index] (lines 70-89), with the line its handler
    prints (lines 79-81). *)
Definition describe_logged (img_path : string) : action template_entry :=
  fun w =>
    let filename := Py.basename img_path in
    let preview_path := "/previews/" +:+ preview_filename filename in
    match try_except (image_size img_path)
                     (fun e w' => (Ok (880, 1020), snd (print (filename, e) w'))) w with
    | (Ok (width, height), w') =>
        (Ok {| te_id := filename;
               te_name := Py.title (Py.replace "_" " " (Py.splitext_root filename));
               te_width := width;
               te_height := height;
               te_preview_url := preview_path;
               te_image_url := "/templates_images/" +:+ filename |}, w')
    | (Raise e, w') => (Raise e, w')
    end.

(** [GET /] as a handler (lines 62-94): the list and what is printed. *)
Definition index_handler (entries : list string) : action (list template_entry) :=
  collect (image_files TEMPLATE_IMAGES_DIR entries) describe_logged.

(** [GET /editor/{template_id}] (lines 96-114): the size of the image, or
    1080 x 1350 and a printed line when it cannot be read. *)
Definition editor (template_id : string) : action editor_page :=
  fun w =>
    let img_path := Py.path_join TEMPLATE_IMAGES_DIR template_id in
    match try_except (image_size img_path)
                     (fun e w' => (Ok (1080, 1350), snd (print (template_id, e) w'))) w with
    | (Ok (width, height), w') =>
        (Ok {| ep_template_id := template_id;
               ep_image_url := "/templates_images/" +:+ template_id;
               ep_width := width;
               ep_height := height |}, w')
    | (Raise e, w') => (Raise e, w')
    end.

End Pages.

(** ** Vocabulary of the further properties *)

(** [s] with the characters that satisfy [p] only. *)
Fixpoint keep_chars (p : ascii -> bool) (s : string) : string :=
  match s with
  | EmptyString => EmptyString
  | String c s' => if p c then String c (keep_chars p s') else keep_chars p s'
  end.

(** A character the base64 decoder reads: a digit of the alphabet or the
    pad. *)
Definition b64_significant (c : ascii) : bool :=
  Ascii.eqb c "=" || match Base64.a2b c with Some _ => true | None => false end.

(** The names [glob] matches for one extension. *)
Definition glob_names (entries : list string) (ext : string) : list string :=
  List.filter (fun name => negb (Py.startswith "." name)
                           && Py.endswith ("." +:+ ext) name) entries.

(** The world after more lines are printed. *)
Definition with_stdout (w : world) (lines : list (string * exn)) : world :=
  {| images := images w; previews := previews w; stdout := stdout w ++ lines |}.

(** [Image.open] succeeds on the path. *)
Definition readable (w : world) (img_path : string) : bool :=
  match images w !! img_path with Some _ => true | None => false end.

(** Where the generator writes the preview of an image. *)
Definition preview_path (PREVIEWS_DIR img_path : string) : string :=
  Py.path_join PREVIEWS_DIR (preview_filename (Py.basename img_path)).

(** The exceptions the body of the generator's [try] can raise. *)
Definition preview_error (e : exn) : Prop :=
  e = OSError \/ e = ValueError \/ e = ZeroDivisionError.

(** Lower-casing every character, to compare names up to case. *)
Fixpoint lower_all (s : string) : string :=
  match s with
  | EmptyString => EmptyString
  | String c s' => String (Py.lower c) (lower_all s')
  end.

(** The characters of a text file a plain editor shows: the printable
    ASCII characters and the newline. *)
Definition is_plain_text (c : ascii) : bool :=
  Ascii.eqb c "010" || ((32 <=? N_of_ascii c) && (N_of_ascii c <=? 126))%N.

(** ** Vocabulary of the specification *)

(** The characters [0-9a-f]. *)
Definition is_hex (c : ascii) : bool :=
  let n := N_of_ascii c in
  ((48 <=? n) && (n <=? 57) || (97 <=? n) && (n <=? 102))%N.

Fixpoint all_chars (p : ascii -> bool) (s : string) : bool :=
  match s with
  | EmptyString => true
  | String c s' => p c && all_chars p s'
  end.

(** The name has no directory part. *)
Definition plain_name (name : string) : bool :=
  all_chars (fun c => negb (Ascii.eqb c "/")) name.

(** An image file of the template directory: a visible name with one of the
    three extensions. *)
Definition is_template_image (name : string) : bool :=
  negb (Py.startswith "." name)
  && (Py.endswith ".jpg" name || Py.endswith ".jpeg" name || Py.endswith ".png" name).

(** The preview name as the specification words it: the base name without
    its extension, between ["preview_"] and [".jpg"]. *)
Definition preview_name_by_extension (filename : string) : string :=
  "preview_" +:+ Py.splitext_root filename +:+ ".jpg".

(** [round(H * 300 / W)] of the specification: the nearest integer, ties to
    even. *)
Definition rounded_height (W H : Z) : Z := Float.rne (H * 300) W.

(** ** Sample inputs *)

Definition sample_save : SavePayload :=
  {| design_id := Some "d1"; template_id := "a.jpg";
     design_json := [("text", JStr "first")] |}.

Definition sample_resave : SavePayload :=
  {| design_id := Some "d1"; template_id := "b.png";
     design_json := [("text", JStr "second"); ("n", JInt 2)] |}.

Definition sample_world : world :=
  {| images := {[ "/app/templates_images/a.jpg"
                    := {| width := 400; height := 301; img_mode := RGB |};
                  "/app/templates_images/c.png"
                    := {| width := 600; height := 400; img_mode := RGBA |} ]};
     previews := ∅;
     stdout := [] |}.

Definition sample_entries : list string := ["broken.jpg"; "c.png"; "a.jpg"; "notes.txt"].

Definition sample_gallery : world :=
  {| images := {[ "/t/wide.jpg" := {| width := 2000; height := 5; img_mode := RGB |};
                  "/t/card.png" := {| width := 600; height := 400; img_mode := RGBA |};
                  "/t/card.jpg" := {| width := 400; height := 301; img_mode := RGB |} ]};
     previews := {[ "/p/preview_old.jpg" := Jpeg 300 100 85 ]};
     stdout := [] |}.

(** * Properties *)

#[local] Arguments String.append !_ _ / : simpl nomatch.

(** ** The library models on values the interpreter gives *)

Example uuid4_hex :
  uuid_hex (uuid4 0x0123456789abcdef0123456789abcdef)
  = "0123456789ab4def8123456789abcdef".
Proof. reflexivity. Qed.

Example path_join_cases :
  Py.path_join "/app/designs" "x.json" = "/app/designs/x.json"
  /\ Py.path_join "/app/designs" "/etc/x.json" = "/etc/x.json"
  /\ Py.path_join "" "x" = "x"
  /\ Py.path_join "d/" "x" = "d/x".
Proof. by repeat split. Qed.

Example name_cases :
  Py.basename "/app/templates_images/a.b.jpg" = "a.b.jpg"
  /\ Py.split_head "." "a.b.jpg" = "a"
  /\ Py.splitext_root "a.b.jpg" = "a.b"
  /\ Py.splitext_root ".hidden" = ".hidden"
  /\ Py.title (Py.replace "_" " " "my_cool_fILE_3d") = "My Cool File 3D"
  /\ Py.split_once "," "data:image/png;base64,AAAA,BB"
     = Some ("data:image/png;base64", "AAAA,BB").
Proof. by repeat split. Qed.

Example dumps_layout :
  Json.dumps (JList [JInt (-12); JList []; JDict []; JBool true; JNull; JList [JInt 0]])
  = "[
  -12,
  [],
  {},
  true,
  null,
  [
    0
  ]
]".
Proof. reflexivity. Qed.

Example loads_cases :
  Json.loads " [1 , {} ] " = Some (JList [JInt 1; JDict []])
  /\ Json.loads "[01]" = None
  /\ Json.loads "[1,]" = None
  /\ Json.loads "1 2" = None
  /\ Json.loads "-" = None.
Proof. by repeat split. Qed.

Example b64decode_cases :
  Base64.b64encode (String "137" "PNG") = "iVBORw=="
  /\ Base64.b64decode "aGVsbG8hIQ==" = Ok "hello!!"
  /\ Base64.b64decode "aGVsbG8hIQ" = Raise BinasciiError
  /\ Base64.b64decode "aGV sbG8hIQ==zzzz" = Ok "hello!!"
  /\ Base64.b64decode "=aGVs" = Ok "hel"
  /\ Base64.b64decode "aG==Vs" = Ok "h"
  /\ Base64.b64decode "a" = Raise BinasciiError.
Proof. by repeat split. Qed.

(** ** Strings *)

Lemma take_length n s : (n <= String.length s)%nat -> String.length (Py.take n s) = n.
Proof.
  revert s; induction n as [|n IH]; intros [|c s] H; simpl in *; try lia.
  rewrite IH; lia.
Qed.

Lemma append_length (a b : string) :
  String.length (a +:+ b) = (String.length a + String.length b)%nat.
Proof. induction a as [|c a IH]; simpl; [done|]. by rewrite IH. Qed.

Lemma hex_fixed_length k n : String.length (hex_fixed k n) = k.
Proof.
  revert n; induction k as [|k IH]; intros n; simpl; [done|].
  rewrite append_length, IH. simpl. lia.
Qed.

Lemma all_chars_app p a b :
  all_chars p (a +:+ b) = all_chars p a && all_chars p b.
Proof. induction a as [|x a IH]; simpl; [done|]. rewrite IH. apply andb_assoc. Qed.

Lemma all_chars_take p n s : all_chars p s = true -> all_chars p (Py.take n s) = true.
Proof.
  revert s; induction n as [|n IH]; intros [|c s]; simpl; try done.
  intros [-> H]%andb_true_iff. simpl. auto.
Qed.

Lemma hex_digit_is_hex n : (n < 16)%N -> is_hex (hex_digit n) = true.
Proof.
  intros H.
  assert (Hn : In n (map N.of_nat (seq 0 16))).
  { apply in_map_iff. exists (N.to_nat n). split; [lia|]. apply in_seq. lia. }
  simpl in Hn. repeat destruct Hn as [<-|Hn]; try reflexivity. destruct Hn.
Qed.

Lemma hex_fixed_is_hex k n : all_chars is_hex (hex_fixed k n) = true.
Proof.
  revert n; induction k as [|k IH]; intros n; simpl; [done|].
  rewrite all_chars_app, IH. simpl.
  rewrite hex_digit_is_hex; [done|]. apply N.mod_lt. lia.
Qed.

(** ** JSON: what [json.dump] writes, [json.load] reads back *)

Module JsonFacts.
Import Json.

Lemma skip_ws_indent level s : skip_ws (indent level s) = skip_ws s.
Proof. induction level as [|l IH]; simpl; auto. Qed.

Lemma skip_ws_newline_indent level s : skip_ws (newline_indent level s) = skip_ws s.
Proof. unfold newline_indent. simpl. apply skip_ws_indent. Qed.

Lemma skip_ws_starts_value s : starts_value s = true -> skip_ws s = s.
Proof.
  destruct s as [|c s]; simpl; [done|].
  destruct (is_ws c); simpl; [done|auto].
Qed.

(** *** String literals *)

Lemma scan_string_emit_char c r :
  scan_string (emit_char c r) = Json.push c (scan_string r).
Proof.
  destruct c as [[] [] [] [] [] [] [] []]; reflexivity.
Qed.

Lemma scan_string_emit_chars s rest :
  scan_string (emit_chars s (String "034" rest)) = Some (s, rest).
Proof.
  induction s as [|c s IH]; simpl; [done|].
  rewrite scan_string_emit_char, IH. reflexivity.
Qed.

(** *** Integers *)

Lemma digit_val_emit_uint_head d rest :
  d <> Decimal.Nil ->
  exists c s', emit_uint d rest = String c s' /\ is_digit c = true.
Proof.
  destruct d; intros H; try done; simpl; eauto.
Qed.

Lemma scan_digits_end acc s : ends_number s = true -> scan_digits acc s = (acc, s).
Proof.
  destruct s as [|c s]; simpl; [done|].
  unfold is_digit. destruct (digit_val c); simpl; [done|auto].
Qed.

Lemma scan_digits_emit_uint d acc rest :
  ends_number rest = true ->
  scan_digits (Z.pos acc) (emit_uint d rest) = (Z.pos (Pos.of_uint_acc d acc), rest).
Proof.
  intros Hend. revert acc.
  induction d; intros acc; simpl.
  { by apply scan_digits_end. }
  all: rewrite <- IHd; f_equal; lia.
Qed.

(** The digits of a positive number start with a digit other than zero. *)
Lemma to_uint_nzhead p : forall d', Pos.to_uint p <> Decimal.D0 d'.
Proof.
  intros d' E.
  pose proof (DecimalPos.Unsigned.to_of (Pos.to_uint p)) as H.
  rewrite DecimalPos.Unsigned.of_to in H. simpl in H.
  unfold Decimal.unorm in H.
  destruct (Decimal.nzhead (Pos.to_uint p)) eqn:Hnz; try congruence.
  - by eapply DecimalPos.Unsigned.to_uint_nonzero.
  - by eapply DecimalFacts.nzhead_nonzero.
Qed.

Lemma scan_nat_emit_pos p rest :
  ends_number rest = true ->
  scan_nat (emit_uint (Pos.to_uint p) rest) = Some (Z.pos p, rest).
Proof.
  intros Hend.
  pose proof (DecimalPos.Unsigned.of_to p) as Hof.
  pose proof (to_uint_nzhead p) as Hnz.
  pose proof (DecimalPos.Unsigned.to_uint_nonnil p) as Hnil.
  destruct (Pos.to_uint p) as [|d|d|d|d|d|d|d|d|d|d]; try done;
    [by destruct (Hnz d)|..];
    simpl in Hof; injection Hof as Hof;
    rewrite <- Hof, <- (scan_digits_emit_uint d _ rest Hend); reflexivity.
Qed.

Lemma is_digit_not_minus c : is_digit c = true -> Ascii.eqb c "-" = false.
Proof. by destruct c as [[] [] [] [] [] [] [] []]. Qed.

Lemma scan_number_emit_int n rest :
  ends_number rest = true ->
  scan_number (emit_int n rest) = Some (n, rest).
Proof.
  intros Hend.
  assert (Hft : is_float_tail rest = false).
  { destruct rest as [|c [|d r]]; try done. simpl in *.
    by destruct (is_digit c), (Ascii.eqb c "."), (Ascii.eqb c "e"), (Ascii.eqb c "E"). }
  destruct n as [|p|p]; unfold emit_int; simpl.
  - unfold scan_number, scan_nat; simpl. by rewrite Hft.
  - pose proof (scan_nat_emit_pos p rest Hend) as H.
    destruct (digit_val_emit_uint_head (Pos.to_uint p) rest
                (DecimalPos.Unsigned.to_uint_nonnil p)) as (c & s' & E & Hc).
    rewrite E in H |- *. unfold scan_number.
    rewrite (is_digit_not_minus c Hc), H, Hft. reflexivity.
  - unfold scan_number. simpl.
    rewrite (scan_nat_emit_pos p rest Hend), Hft. reflexivity.
Qed.

(** *** Values *)

Lemma emit_list level x xs rest :
  emit level (JList (x :: xs)) rest =
  String "[" (newline_indent (S level) (emit (S level) x (emit_items level xs rest))).
Proof.
  simpl. do 3 f_equal. induction xs as [|y xs IH]; simpl; [done|]. by rewrite IH.
Qed.

Lemma emit_dict level k x kvs rest :
  emit level (JDict ((k, x) :: kvs)) rest =
  String "{" (newline_indent (S level)
    (emit_str k (String ":" (String " "
       (emit (S level) x (emit_members level kvs rest)))))).
Proof.
  simpl. do 6 f_equal. induction kvs as [|[k' y] kvs IH]; simpl; [done|]. by rewrite IH.
Qed.

Lemma starts_value_emit_uint d rest :
  d <> Decimal.Nil -> starts_value (emit_uint d rest) = true.
Proof. by destruct d. Qed.

Lemma starts_value_emit level v rest : starts_value (emit level v rest) = true.
Proof.
  destruct v as [| [] | n | s | [|x xs] | [|[k x] kvs]]; try reflexivity.
  unfold emit, emit_int. destruct n as [|p|p]; simpl; try reflexivity.
  apply starts_value_emit_uint, DecimalPos.Unsigned.to_uint_nonnil.
Qed.

Lemma skip_ws_emit level v rest : skip_ws (emit level v rest) = emit level v rest.
Proof. apply skip_ws_starts_value, starts_value_emit. Qed.

Lemma ends_number_emit_items level l rest : ends_number (emit_items level l rest) = true.
Proof. by destruct l. Qed.

Lemma ends_number_emit_members level l rest :
  ends_number (emit_members level l rest) = true.
Proof. by destruct l as [|[k y] l]. Qed.

(** The equations of [scan_once] on the first character. *)
Lemma scan_once_number fuel c s :
  is_digit c || Ascii.eqb c "-" = true ->
  scan_once (S fuel) (String c s) =
  match scan_number (String c s) with
  | Some (n, r) => Some (JInt n, r)
  | None => None
  end.
Proof. by destruct c as [[] [] [] [] [] [] [] []]. Qed.

Lemma emit_int_head n rest :
  exists c s, emit_int n rest = String c s /\ is_digit c || Ascii.eqb c "-" = true.
Proof.
  unfold emit_int. destruct n as [|p|p]; simpl; eauto.
  destruct (digit_val_emit_uint_head (Pos.to_uint p) rest
              (DecimalPos.Unsigned.to_uint_nonnil p)) as (c & s' & E & Hc).
  exists c, s'. by rewrite E, Hc.
Qed.

Lemma dict_set_fresh k v d :
  k ∉ map fst d -> dict_set k v d = d ++ [(k, v)].
Proof.
  induction d as [|[k' v'] d IH]; simpl; [done|].
  intros Hk. apply not_elem_of_cons in Hk as [Hne Hk].
  destruct (String.eqb_spec k k'); [done|]. by rewrite IH.
Qed.

Lemma dict_of_pairs_nodup l : NoDup (map fst l) -> dict_of_pairs l = l.
Proof.
  unfold dict_of_pairs.
  assert (H : forall acc, NoDup (map fst (acc ++ l)) ->
              fold_left (fun d kv => dict_set (fst kv) (snd kv) d) l acc = acc ++ l).
  { induction l as [|[k v] l IH]; intros acc Hnd; simpl.
    - by rewrite app_nil_r.
    - rewrite dict_set_fresh.
      + rewrite IH; rewrite <- app_assoc; [done|]. exact Hnd.
      + rewrite map_app in Hnd. simpl in Hnd.
        apply NoDup_app in Hnd as (_ & Hnd & _).
        intros Hin. apply (Hnd k Hin). by left. }
  intros Hnd. by rewrite (H [] Hnd).
Qed.

Lemma scan_once_string fuel s :
  scan_once (S fuel) (String "034" s) =
  match scan_string s with
  | Some (str, r) => Some (JStr str, r)
  | None => None
  end.
Proof. reflexivity. Qed.

Lemma scan_once_list fuel s :
  scan_once (S fuel) (String "[" s) =
  match skip_ws s with
  | String c' r =>
      if Ascii.eqb c' "]" then Some (JList [], r)
      else match scan_elements fuel (String c' r) with
           | Some (vs, r') => Some (JList vs, r')
           | None => None
           end
  | EmptyString => None
  end.
Proof. reflexivity. Qed.

Lemma scan_once_dict fuel s :
  scan_once (S fuel) (String "{" s) =
  match skip_ws s with
  | String c' r =>
      if Ascii.eqb c' "}" then Some (JDict [], r)
      else match scan_members fuel (String c' r) with
           | Some (pairs, r') => Some (JDict (dict_of_pairs pairs), r')
           | None => None
           end
  | EmptyString => None
  end.
Proof. reflexivity. Qed.

Lemma scan_elements_S fuel s :
  scan_elements (S fuel) s =
  match scan_once fuel s with
  | Some (v, r) =>
      match skip_ws r with
      | String c r' =>
          if Ascii.eqb c "]" then Some ([v], r')
          else if Ascii.eqb c "," then
            match scan_elements fuel (skip_ws r') with
            | Some (vs, r'') => Some (v :: vs, r'')
            | None => None
            end
          else None
      | EmptyString => None
      end
  | None => None
  end.
Proof. reflexivity. Qed.

Lemma scan_members_S fuel s :
  scan_members (S fuel) (String "034" s) =
  match scan_string s with
  | Some (k, r) =>
      match skip_ws r with
      | String c r1 =>
          if Ascii.eqb c ":" then
            match scan_once fuel (skip_ws r1) with
            | Some (v, r2) =>
                match skip_ws r2 with
                | String c' r3 =>
                    if Ascii.eqb c' "}" then Some ([(k, v)], r3)
                    else if Ascii.eqb c' "," then
                      match scan_members fuel (skip_ws r3) with
                      | Some (kvs, r4) => Some ((k, v) :: kvs, r4)
                      | None => None
                      end
                    else None
                | EmptyString => None
                end
            | None => None
            end
          else None
      | EmptyString => None
      end
  | None => None
  end.
Proof. reflexivity. Qed.

Lemma scan_emit fuel :
  (forall v level rest,
      wf_json v = true -> (jsize v <= fuel)%nat -> ends_number rest = true ->
      scan_once fuel (emit level v rest) = Some (v, rest))
  /\ (forall x xs level rest,
      forallb wf_json (x :: xs) = true -> (elems_size (x :: xs) <= fuel)%nat ->
      scan_elements fuel (emit (S level) x (emit_items level xs rest))
      = Some (x :: xs, rest))
  /\ (forall k x kvs level rest,
      forallb (fun kv => wf_json (snd kv)) ((k, x) :: kvs) = true ->
      (members_size ((k, x) :: kvs) <= fuel)%nat ->
      scan_members fuel
        (emit_str k (String ":" (String " "
           (emit (S level) x (emit_members level kvs rest)))))
      = Some ((k, x) :: kvs, rest)).
Proof.
  induction fuel as [|fuel (IHv & IHe & IHm)].
  { split; [|split].
    - intros v ? ? _ H. destruct v; simpl in H; lia.
    - intros x xs ? ? _ H. unfold elems_size in H. simpl in H. lia.
    - intros k x kvs ? ? _ H. unfold members_size in H. simpl in H. lia. }
  split; [|split].
  - intros v level rest Hwf Hsz Hend.
    destruct v as [| [] | n | s | [|x xs] | [|[k x] kvs]]; try reflexivity.
    + destruct (emit_int_head n rest) as (c & s' & E & Hc).
      cbn [emit]. rewrite E, scan_once_number by done.
      rewrite <- E, scan_number_emit_int by done. reflexivity.
    + cbn [emit]. unfold emit_str. rewrite scan_once_string.
      by rewrite scan_string_emit_chars.
    + rewrite emit_list, scan_once_list, skip_ws_newline_indent, skip_ws_emit.
      pose proof (starts_value_emit (S level) x (emit_items level xs rest)) as Hsv.
      pose proof (IHe x xs level rest) as IH.
      destruct (emit (S level) x (emit_items level xs rest)) as [|c' r]; [done|].
      simpl in Hsv. destruct (Ascii.eqb c' "]"); [by rewrite andb_false_r in Hsv|].
      rewrite IH; [done|exact Hwf|]. cbn [jsize] in Hsz. unfold elems_size. lia.
    + rewrite emit_dict, scan_once_dict, skip_ws_newline_indent.
      cbn [wf_json] in Hwf. apply andb_true_iff in Hwf as [Hnd Hwf].
      apply bool_decide_eq_true in Hnd.
      pose proof (IHm k x kvs level rest Hwf) as IH.
      unfold emit_str in IH |- *.
      rewrite skip_ws_starts_value by reflexivity. cbn [Ascii.eqb Bool.eqb].
      rewrite IH.
      * by rewrite dict_of_pairs_nodup.
      * cbn [jsize] in Hsz. unfold members_size. lia.
  - intros x xs level rest Hwf Hsz.
    cbn [forallb] in Hwf. apply andb_true_iff in Hwf as [Hx Hxs].
    unfold elems_size in Hsz. simpl in Hsz.
    rewrite scan_elements_S, IHv; [|done|lia|apply ends_number_emit_items].
    destruct xs as [|y xs].
    + cbn [emit_items]. rewrite skip_ws_newline_indent. reflexivity.
    + cbn [emit_items]. rewrite skip_ws_starts_value by reflexivity.
      cbn [Ascii.eqb Bool.eqb].
      rewrite skip_ws_newline_indent, skip_ws_emit.
      rewrite IHe; [done|done|]. unfold elems_size. simpl in Hsz |- *. lia.
  - intros k x kvs level rest Hwf Hsz.
    cbn [forallb snd] in Hwf. apply andb_true_iff in Hwf as [Hx Hkvs].
    unfold members_size in Hsz. simpl in Hsz.
    unfold emit_str. rewrite scan_members_S, scan_string_emit_chars.
    rewrite skip_ws_starts_value by reflexivity. cbn [Ascii.eqb Bool.eqb].
    change (skip_ws (String " " ?s)) with (skip_ws s).
    rewrite skip_ws_emit.
    rewrite IHv; [|done|lia|apply ends_number_emit_members].
    destruct kvs as [|[k' y] kvs].
    + cbn [emit_members]. rewrite skip_ws_newline_indent. reflexivity.
    + cbn [emit_members]. rewrite skip_ws_starts_value by reflexivity.
      cbn [Ascii.eqb Bool.eqb].
      rewrite skip_ws_newline_indent.
      pose proof (IHm k' y kvs level rest Hkvs) as IH.
      unfold emit_str in IH |- *.
      rewrite skip_ws_starts_value by reflexivity.
      rewrite IH; [done|]. unfold members_size. simpl in Hsz |- *. lia.
Qed.

(** *** The fuel of [loads] is enough *)

#[local] Arguments newline_indent : simpl never.
#[local] Arguments emit_str : simpl never.

Lemma length_indent level s :
  String.length (indent level s) = (2 * level + String.length s)%nat.
Proof. induction level as [|l IH]; simpl; [done|]. rewrite IH. lia. Qed.

Lemma length_newline_indent level s :
  String.length (newline_indent level s) = (1 + 2 * level + String.length s)%nat.
Proof. unfold newline_indent. simpl. by rewrite length_indent. Qed.

Lemma length_emit_char c rest :
  (S (String.length rest) <= String.length (emit_char c rest))%nat.
Proof.
  unfold emit_char.
  repeat match goal with |- context [if ?b then _ else _] => destruct b end;
    simpl; rewrite ?append_length, ?hex_fixed_length; lia.
Qed.

Lemma length_emit_chars s rest :
  (String.length rest <= String.length (emit_chars s rest))%nat.
Proof.
  induction s as [|c s IH]; simpl; [done|].
  pose proof (length_emit_char c (emit_chars s rest)). lia.
Qed.

Lemma length_emit_str s rest :
  (2 + String.length rest <= String.length (emit_str s rest))%nat.
Proof.
  unfold emit_str. simpl.
  pose proof (length_emit_chars s (String "034" rest)). simpl in *. lia.
Qed.

Lemma length_emit_uint d rest :
  d <> Decimal.Nil ->
  (1 + String.length rest <= String.length (emit_uint d rest))%nat.
Proof.
  assert (H : forall d, (String.length rest <= String.length (emit_uint d rest))%nat).
  { clear d. induction d; simpl; lia. }
  destruct d; intros Hd; try done; simpl; specialize (H d); lia.
Qed.

Lemma length_emit_int n rest :
  (1 + String.length rest <= String.length (emit_int n rest))%nat.
Proof.
  unfold emit_int. destruct n as [|p|p]; simpl; try lia.
  - apply length_emit_uint, DecimalPos.Unsigned.to_uint_nonnil.
  - pose proof (length_emit_uint (Pos.to_uint p) rest
                  (DecimalPos.Unsigned.to_uint_nonnil p)). lia.
Qed.

Lemma jsize_le_length n :
  forall v level rest, (jsize v <= n)%nat ->
    (jsize v + String.length rest <= String.length (emit level v rest))%nat.
Proof.
  induction n as [|n IH]; intros v level rest Hn.
  { destruct v; simpl in Hn; lia. }
  destruct v as [| [] | z | s | [|x xs] | [|[k x] kvs]]; try (simpl; lia).
  - cbn [emit jsize]. pose proof (length_emit_int z rest). lia.
  - cbn [emit jsize]. pose proof (length_emit_str s rest). lia.
  - rewrite emit_list. cbn [jsize] in *. simpl in Hn |- *.
    rewrite ?length_newline_indent, ?length_indent.
    assert (Hxs : (list_sum (map (fun x => S (jsize x)) xs) + String.length rest
                   <= String.length (emit_items level xs rest))%nat).
    { assert (Hle : (list_sum (map (fun x => S (jsize x)) xs) <= n)%nat) by lia.
      clear Hn. induction xs as [|y xs IHxs]; simpl in *.
      - rewrite ?length_newline_indent, ?length_indent. simpl. lia.
      - rewrite ?length_newline_indent, ?length_indent.
        pose proof (IH y (S level) (emit_items level xs rest)). lia. }
    pose proof (IH x (S level) (emit_items level xs rest)). lia.
  - rewrite emit_dict. cbn [jsize] in *. simpl in Hn |- *.
    rewrite ?length_newline_indent, ?length_indent.
    assert (Hxs : (list_sum (map (fun kv => S (jsize (snd kv))) kvs)
                   + String.length rest
                   <= String.length (emit_members level kvs rest))%nat).
    { assert (Hle : (list_sum (map (fun kv => S (jsize (snd kv))) kvs) <= n)%nat)
        by lia.
      clear Hn. induction kvs as [|[k' y] kvs IHxs]; simpl in *.
      - rewrite ?length_newline_indent, ?length_indent. simpl. lia.
      - rewrite ?length_newline_indent, ?length_indent.
        pose proof (length_emit_str k' (String ":" (String " "
                      (emit (S level) y (emit_members level kvs rest))))).
        pose proof (IH y (S level) (emit_members level kvs rest)).
        simpl in *. lia. }
    pose proof (length_emit_str k (String ":" (String " "
                  (emit (S level) x (emit_members level kvs rest))))).
    pose proof (IH x (S level) (emit_members level kvs rest)).
    simpl in *. lia.
Qed.

(** [json.loads(json.dumps(v, indent=2)) == v] *)
Lemma loads_dumps v : wf_json v = true -> loads (dumps v) = Some v.
Proof.
  intros Hwf. unfold loads, dumps. rewrite skip_ws_emit.
  destruct (scan_emit (S (String.length (emit 0 v "")))) as (H & _ & _).
  rewrite H; [done|done| |done].
  pose proof (jsize_le_length (jsize v) v 0 "" (le_n _)). lia.
Qed.

End JsonFacts.

(** ** Base64: decoding what the standard encoder produced *)

Module Base64Facts.
Import Base64.

Lemma forallb_below (P : N -> bool) (k : nat) :
  forallb P (map N.of_nat (seq 0 k)) = true ->
  forall n, (n < N.of_nat k)%N -> P n = true.
Proof.
  intros H n Hn. rewrite forallb_forall in H. apply H.
  apply in_map_iff. exists (N.to_nat n). split; [lia|]. apply in_seq. lia.
Qed.

Lemma forallb_below2 (P : N -> N -> bool) (k1 k2 : nat) :
  forallb (fun a => forallb (P a) (map N.of_nat (seq 0 k2)))
          (map N.of_nat (seq 0 k1)) = true ->
  forall a b, (a < N.of_nat k1)%N -> (b < N.of_nat k2)%N -> P a b = true.
Proof.
  intros H a b Ha Hb.
  apply (forallb_below (P a) k2); [|done].
  by apply (forallb_below (fun a => forallb (P a) _) k1).
Qed.

Lemma sextet_ok_all n : (n < 64)%N -> sextet_ok n = true.
Proof. apply (forallb_below sextet_ok 64). by vm_compute. Qed.

Lemma pair_ok_all a b : (a < 256)%N -> (b < 256)%N -> pair_ok a b = true.
Proof. apply (forallb_below2 pair_ok 256 256). by vm_compute. Qed.

Lemma a2b_loop_sextet n s q l p :
  (n < 64)%N ->
  a2b_loop (String (b2a n) s) q l p =
  if (q =? 0)%N then a2b_loop s 1%N n 0%N
  else if (q =? 1)%N then
    Base64.push (uchar (N.lor (N.shiftl l 2) (N.shiftr n 4)))
                (a2b_loop s 2%N (N.land n 15) 0%N)
  else if (q =? 2)%N then
    Base64.push (uchar (N.lor (N.shiftl l 4) (N.shiftr n 2)))
                (a2b_loop s 3%N (N.land n 3) 0%N)
  else
    Base64.push (uchar (N.lor (N.shiftl l 6) n)) (a2b_loop s 0%N 0%N 0%N).
Proof.
  intros Hn. pose proof (sextet_ok_all n Hn) as H. unfold sextet_ok in H.
  apply andb_true_iff in H as [H1 H2]. apply negb_true_iff in H2.
  cbn [a2b_loop]. rewrite H2.
  destruct (a2b (b2a n)) as [m|]; [|done].
  apply N.eqb_eq in H1 as ->. reflexivity.
Qed.

Lemma uchar_byte x n : N.land n 255 = N_of_ascii x -> uchar n = x.
Proof. unfold uchar. intros ->. apply ascii_N_embedding. Qed.

Lemma string_ind3 (P : string -> Prop) :
  P "" ->
  (forall x, P (String x "")) ->
  (forall x y, P (String x (String y ""))) ->
  (forall x y z r, P r -> P (String x (String y (String z r)))) ->
  forall s, P s.
Proof.
  intros H0 H1 H2 H3 s.
  assert (H : P s /\ (forall x, P (String x s)) /\ (forall x y, P (String x (String y s)))).
  { induction s as [|c s (IHs & IH1 & IH2)]; [by auto|].
    split; [apply IH1|]. split; [intros x; apply IH2|]. intros x y. by apply H3. }
  apply H.
Qed.

Lemma pair_facts x y :
  let a := N_of_ascii x in
  let b := N_of_ascii y in
  (sx1 a < 64 /\ sx2 a b < 64 /\ sx3 a b < 64 /\ sx4 a < 64)%N
  /\ N.land (N.lor (N.shiftl (sx1 a) 2) (N.shiftr (sx2 a b) 4)) 255 = a
  /\ N.land (sx2 a b) 15 = N.shiftr b 4
  /\ N.land (N.lor (N.shiftl (N.shiftr a 4) 4) (N.shiftr (sx3 a b) 2)) 255 = a
  /\ N.land (N.lor (N.shiftl (N.land (sx3 a b) 3) 6) (sx4 b)) 255 = b.
Proof.
  intros a b.
  pose proof (pair_ok_all a b (N_ascii_bounded x) (N_ascii_bounded y)) as H.
  unfold pair_ok in H.
  repeat (apply andb_true_iff in H as [H ?]).
  repeat match goal with H : (_ <? _)%N = true |- _ => apply N.ltb_lt in H end.
  repeat match goal with H : (_ =? _)%N = true |- _ => apply N.eqb_eq in H end.
  done.
Qed.

Lemma sx2_0 a : sx2 a 0 = N.shiftl (N.land a 3) 4.
Proof. unfold sx2. by rewrite N.shiftr_0_l, N.lor_0_r. Qed.

Lemma sx3_0 b : sx3 b 0 = N.shiftl (N.land b 15) 2.
Proof. unfold sx3. by rewrite N.shiftr_0_l, N.lor_0_r. Qed.

Lemma b64encode_1 x :
  b64encode (String x "") =
  String (b2a (sx1 (N_of_ascii x))) (String (b2a (sx2 (N_of_ascii x) 0)) "==").
Proof. by rewrite sx2_0. Qed.

Lemma b64encode_2 x y :
  b64encode (String x (String y "")) =
  String (b2a (sx1 (N_of_ascii x)))
    (String (b2a (sx2 (N_of_ascii x) (N_of_ascii y)))
       (String (b2a (sx3 (N_of_ascii y) 0)) "=")).
Proof. by rewrite sx3_0. Qed.

Lemma b64encode_3 x y z r :
  b64encode (String x (String y (String z r))) =
  String (b2a (sx1 (N_of_ascii x)))
    (String (b2a (sx2 (N_of_ascii x) (N_of_ascii y)))
       (String (b2a (sx3 (N_of_ascii y) (N_of_ascii z)))
          (String (b2a (sx4 (N_of_ascii z))) (b64encode r)))).
Proof. reflexivity. Qed.

(** [a2b_base64(b2a_base64(bs)) == bs] *)
Lemma a2b_loop_b64encode bs : a2b_loop (b64encode bs) 0 0 0 = Some bs.
Proof.
  induction bs as [|x|x y|x y z r IH] using string_ind3.
  - reflexivity.
  - rewrite b64encode_1.
    destruct (pair_facts x "000") as ((H1 & H2 & _ & _) & E1 & _).
    change (N_of_ascii "000") with 0%N in *.
    rewrite !a2b_loop_sextet by done. cbn -[uchar sx1 sx2].
    by rewrite (uchar_byte x) by exact E1.
  - rewrite b64encode_2.
    destruct (pair_facts x y) as ((H1 & H2 & _ & _) & E1 & E2 & _).
    destruct (pair_facts y "000") as ((_ & _ & H3 & _) & _ & _ & E3 & _).
    change (N_of_ascii "000") with 0%N in *.
    rewrite !a2b_loop_sextet by done. cbn -[uchar sx1 sx2 sx3].
    rewrite (uchar_byte x) by exact E1.
    rewrite E2, (uchar_byte y) by exact E3. done.
  - rewrite b64encode_3.
    destruct (pair_facts x y) as ((H1 & H2 & _ & _) & E1 & E2 & _).
    destruct (pair_facts y z) as ((_ & _ & H3 & _) & _ & _ & E3 & E4).
    destruct (pair_facts z z) as ((_ & _ & _ & H4) & _).
    rewrite !a2b_loop_sextet by done. cbn -[uchar sx1 sx2 sx3 sx4 a2b_loop].
    rewrite (uchar_byte x) by exact E1.
    rewrite E2, (uchar_byte y) by exact E3.
    rewrite (uchar_byte z) by exact E4.
    by rewrite IH.
Qed.

Lemma b2a_is_ascii n : (N_of_ascii (b2a n) <? 128)%N = true.
Proof.
  destruct (N.lt_ge_cases n 64) as [Hn|Hn].
  - revert n Hn. apply (forallb_below (fun n => (N_of_ascii (b2a n) <? 128)%N) 64).
    by vm_compute.
  - unfold b2a.
    destruct (N.ltb_spec n 26); [lia|]. destruct (N.ltb_spec n 52); [lia|].
    destruct (N.ltb_spec n 62); [lia|]. by destruct (N.eqb_spec n 62).
Qed.

Lemma b64encode_is_ascii bs : is_ascii (b64encode bs) = true.
Proof.
  unfold is_ascii.
  induction bs as [|x|x y|x y z r IH] using string_ind3;
    cbn [b64encode list_ascii_of_string forallb];
    rewrite ?b2a_is_ascii; try done.
Qed.

(** [base64.b64decode(base64.b64encode(bs)) == bs] *)
Lemma b64decode_b64encode bs : b64decode (b64encode bs) = Ok bs.
Proof.
  unfold b64decode. by rewrite b64encode_is_ascii, a2b_loop_b64encode.
Qed.

Lemma b2a_not_colon n : Ascii.eqb ":" (b2a n) = false.
Proof.
  destruct (N.lt_ge_cases n 64) as [Hn|Hn].
  - apply negb_true_iff. revert n Hn.
    apply (forallb_below (fun n => negb (Ascii.eqb ":" (b2a n))) 64).
    by vm_compute.
  - unfold b2a.
    destruct (N.ltb_spec n 26); [lia|]. destruct (N.ltb_spec n 52); [lia|].
    destruct (N.ltb_spec n 62); [lia|]. by destruct (N.eqb_spec n 62).
Qed.

Lemma b64encode_no_colon bs :
  all_chars (fun c => negb (Ascii.eqb ":" c)) (b64encode bs) = true.
Proof.
  induction bs as [|x|x y|x y z r IH] using string_ind3;
    cbn [b64encode all_chars]; rewrite ?b2a_not_colon; try done.
Qed.

(** No encoded text starts with the scheme of a data URI. *)
Lemma b64encode_not_data bs : Py.startswith "data:" (b64encode bs) = false.
Proof.
  pose proof (b64encode_no_colon bs) as H.
  destruct (b64encode bs) as [|c1 [|c2 [|c3 [|c4 [|c5 s]]]]];
    cbn [Py.startswith]; rewrite ?andb_false_r; try done.
  cbn [all_chars] in H.
  repeat (apply andb_true_iff in H as [? H]).
  destruct (Ascii.eqb ":" c5); [done|]. by rewrite ?andb_false_r.
Qed.

End Base64Facts.

(** ** Double precision: the error of [height * (300 / width)] *)

Module FloatFacts.
Import Float.

(** The model and [SpecFloat] give the same height on the sample sizes. *)
Lemma model_matches_binary64 :
  forallb (fun '(W, H) => Binary64.height W H =? Binary64.model_height W H)
          Binary64.sizes = true.
Proof. by vm_compute. Qed.

(** [int(21 * (300 / 7))] is 899: the product falls short of 900. *)
Example height_7_21 : Binary64.model_height 7 21 = 899.
Proof. reflexivity. Qed.

(** [2 ^ x] as the product [2 ^ y * 2 ^ z], for [x = y + z] and [0 <= y, z]. *)
Tactic Notation "pow2_split" constr(x) constr(y) constr(z) :=
  replace (2 ^ x) with (2 ^ y * 2 ^ z)
    by (rewrite <- Z.pow_add_r by lia; f_equal; lia).

Tactic Notation "pow2_split" constr(x) constr(y) constr(z) "in" hyp(H) :=
  replace (2 ^ x) with (2 ^ y * 2 ^ z) in H
    by (rewrite <- Z.pow_add_r by lia; f_equal; lia).

Lemma rne_spec n d : 0 < d -> - d <= 2 * (rne n d * d - n) <= d.
Proof.
  intros Hd. unfold rne.
  pose proof (Z.div_mod n d ltac:(lia)) as Hdm.
  pose proof (Z.mod_pos_bound n d Hd) as Hr.
  destruct (Z.compare_spec (2 * (n mod d)) d) as [E|E|E];
    [destruct (Z.even (n / d))|..]; nia.
Qed.

Lemma rne_scale c n d : 0 < c -> 0 < d -> rne (c * n) (c * d) = rne n d.
Proof.
  intros Hc Hd. unfold rne.
  rewrite Z.div_mul_cancel_l, Z.mul_mod_distr_l by lia.
  destruct (Z.compare_spec (2 * (c * (n mod d))) (c * d)),
           (Z.compare_spec (2 * (n mod d)) d); try reflexivity; nia.
Qed.

Lemma rne_1 n : rne n 1 = n.
Proof. unfold rne. by rewrite Z.div_1_r, Z.mod_1_r. Qed.

(** [ulp_exp n d + 52] is the binary exponent of [n / d]: for every way
    [A - b] of writing it, [2 ^ A <= (n / d) * 2 ^ b < 2 ^ (A + 1)]. *)
Lemma ulp_exp_spec n d A b :
  0 < n -> 0 < d -> 0 <= A -> 0 <= b -> A - b = ulp_exp n d + 52 ->
  d * 2 ^ A <= n * 2 ^ b < 2 * (d * 2 ^ A).
Proof.
  intros Hn Hd HA Hb HE.
  pose proof (Z.log2_spec n Hn) as [Hn1 Hn2].
  pose proof (Z.log2_spec d Hd) as [Hd1 Hd2].
  pose proof (Z.log2_nonneg n) as HLn. pose proof (Z.log2_nonneg d) as HLd.
  rewrite Z.pow_succ_r in Hn2, Hd2 by done.
  set (Ln := Z.log2 n) in *. set (Ld := Z.log2 d) in *.
  assert (HP : 0 < 2 ^ Ln) by (by apply Z.pow_pos_nonneg).
  assert (HQ : 0 < 2 ^ Ld) by (by apply Z.pow_pos_nonneg).
  (* the comparison made by [ge_pow2], on a common scale *)
  assert (Hge : ge_pow2 n d (Ln - Ld) = true <-> d * 2 ^ Ln <= n * 2 ^ Ld).
  { unfold ge_pow2. destruct (Z.leb_spec 0 (Ln - Ld)) as [Hk|Hk].
    - pow2_split Ln (Ln - Ld) Ld.
      rewrite Z.leb_le. nia.
    - pow2_split Ld (- (Ln - Ld)) Ln.
      rewrite Z.leb_le. nia. }
  (* a canonical pair of exponents *)
  assert (Hcan : exists A0 b0, 0 <= A0 /\ 0 <= b0 /\ A0 - b0 = A - b /\
                 d * 2 ^ A0 <= n * 2 ^ b0 < 2 * (d * 2 ^ A0)).
  { unfold ulp_exp in HE. fold Ln Ld in HE.
    destruct (Z.le_gt_cases (d * 2 ^ Ln) (n * 2 ^ Ld)) as [G|G].
    - exists Ln, Ld. rewrite (proj2 Hge G) in HE. repeat split; try lia. nia.
    - exists Ln, (Ld + 1).
      assert (G' : ge_pow2 n d (Ln - Ld) = false).
      { destruct (ge_pow2 n d (Ln - Ld)); [|done]. pose proof (proj1 Hge eq_refl). lia. }
      rewrite G' in HE.
      rewrite Z.pow_add_r by lia. change (2 ^ 1) with 2.
      repeat split; try lia; nia. }
  destruct Hcan as (A0 & b0 & HA0 & Hb0 & Hdiff & Hlo & Hhi).
  destruct (Z.le_gt_cases A0 A) as [Hle|Hgt].
  - pow2_split A A0 (A - A0).
    pow2_split b b0 (A - A0).
    assert (0 < 2 ^ (A - A0)) by (apply Z.pow_pos_nonneg; lia). nia.
  - pow2_split A0 A (A0 - A) in Hlo; pow2_split A0 A (A0 - A) in Hhi.
    pow2_split b0 b (A0 - A) in Hlo; pow2_split b0 b (A0 - A) in Hhi.
    assert (0 < 2 ^ (A0 - A)) by (apply Z.pow_pos_nonneg; lia). nia.
Qed.

(** The value [round n d] is [n / d] rounded at its 53rd binary digit. *)
Lemma round_spec n d a b :
  0 < n -> 0 < d -> 0 <= a -> 0 <= b -> a - b = expo (round n d) ->
  mant (round n d) = rne (n * 2 ^ b) (d * 2 ^ a)
  /\ 2 ^ 52 * (d * 2 ^ a) <= n * 2 ^ b < 2 ^ 53 * (d * 2 ^ a).
Proof.
  intros Hn Hd Ha Hb. unfold round.
  destruct (Z.eqb_spec n 0) as [->|_]; [lia|]. cbn [mant expo]. intros He.
  assert (Hpa : 0 < 2 ^ a) by (by apply Z.pow_pos_nonneg).
  assert (Hpb : 0 < 2 ^ b) by (by apply Z.pow_pos_nonneg).
  split.
  - destruct (Z.leb_spec 0 (ulp_exp n d)) as [Hs|Hs].
    + pow2_split a b (ulp_exp n d).
      assert (0 < 2 ^ ulp_exp n d) by (by apply Z.pow_pos_nonneg).
      replace (n * 2 ^ b) with (2 ^ b * n) by lia.
      replace (d * (2 ^ b * 2 ^ ulp_exp n d)) with (2 ^ b * (d * 2 ^ ulp_exp n d)) by lia.
      rewrite rne_scale by nia. reflexivity.
    + pow2_split b a (- ulp_exp n d).
      replace (n * (2 ^ a * 2 ^ (- ulp_exp n d)))
        with (2 ^ a * (n * 2 ^ (- ulp_exp n d))) by lia.
      replace (d * 2 ^ a) with (2 ^ a * d) by lia.
      rewrite rne_scale by lia. reflexivity.
  - pose proof (ulp_exp_spec n d (a + 52) b Hn Hd ltac:(lia) Hb ltac:(lia)) as H.
    rewrite Z.pow_add_r in H by lia.
    change (2 ^ 53) with (2 * 2 ^ 52). lia.
Qed.

(** The arithmetic of the two roundings: [m1 / K] is the rounded [300 / W]
    and [m2 / T] is the rounded product with [H]. *)
Lemma two_roundings W H K T m1 m2 :
  0 < W -> 0 < H < 2 ^ 31 -> 0 < K -> 0 < T ->
  2 ^ 52 * W <= 300 * K < 2 ^ 53 * W ->
  - W <= 2 * (m1 * W - 300 * K) <= W ->
  2 ^ 52 * K <= H * m1 * T ->
  - K <= 2 * (m2 * K - H * m1 * T) <= K ->
  (H * 300) / W - 1 <= m2 / T <= (H * 300) / W
  /\ ((H * 300) mod W <> 0 -> m2 / T = (H * 300) / W).
Proof.
  intros HW HH HK HT HB HA HD HC.
  pose proof (Z.div_mod (H * 300) W ltac:(lia)) as HN.
  pose proof (Z.mod_pos_bound (H * 300) W HW) as Hr.
  set (f := H * 300 / W) in *. set (r := (H * 300) mod W) in *.
  change (2 ^ 52) with 4503599627370496 in *.
  change (2 ^ 53) with 9007199254740992 in *.
  change (2 ^ 31) with 2147483648 in *.
  (* products used as atoms *)
  assert (HHW : 0 < H * W) by (apply Z.mul_pos_pos; lia).
  assert (HHWb : H * W <= 2147483647 * W) by (apply Z.mul_le_mono_nonneg_r; lia).
  assert (a1 : 3 * (H * W) < 2 * K) by lia.
  assert (a7 : H < K).
  { assert (H * 1 <= H * W) by (apply Z.mul_le_mono_nonneg_l; lia). lia. }
  assert (a2 : m1 <= 9007199254740992).
  { assert (m1 * W < 9007199254740993 * W) by lia.
    apply Z.mul_lt_mono_pos_r in H0; lia. }
  assert (a2' : 0 < m1).
  { assert (0 * W < m1 * W) by lia. apply Z.mul_lt_mono_pos_r in H0; lia. }
  assert (HHT : 0 < H * T) by (apply Z.mul_pos_pos; lia).
  assert (a3 : K <= 2 * (H * T)).
  { assert (m1 * (H * T) <= 9007199254740992 * (H * T))
      by (apply Z.mul_le_mono_nonneg_r; lia).
    replace (H * m1 * T) with (m1 * (H * T)) in HD by ring. lia. }
  (* everything on the scale K * W *)
  assert (c1 : - (K * W) <= 2 * (m2 * K * W) - 2 * (H * m1 * T * W) <= K * W).
  { replace (2 * (m2 * K * W) - 2 * (H * m1 * T * W))
      with ((2 * (m2 * K - H * m1 * T)) * W) by ring.
    split.
    - replace (- (K * W)) with ((- K) * W) by ring.
      apply Z.mul_le_mono_nonneg_r; lia.
    - apply Z.mul_le_mono_nonneg_r; lia. }
  assert (c2 : - (H * T * W) <= 2 * (H * m1 * T * W) - 600 * (K * (H * T)) <= H * T * W).
  { replace (2 * (H * m1 * T * W) - 600 * (K * (H * T)))
      with ((H * T) * (2 * (m1 * W - 300 * K))) by ring.
    replace (H * T * W) with ((H * T) * W) by ring.
    split.
    - replace (- (H * T * W)) with ((H * T) * (- W)) by ring.
      apply Z.mul_le_mono_nonneg_l; lia.
    - apply Z.mul_le_mono_nonneg_l; lia. }
  assert (a5 : 600 * (K * (H * T)) = 2 * (f * (K * T * W)) + 2 * (r * (K * T))).
  { replace (600 * (K * (H * T))) with (2 * ((H * 300) * (K * T))) by ring.
    rewrite HN. ring. }
  assert (HKT : 0 < K * T) by (apply Z.mul_pos_pos; lia).
  assert (HKW : 0 < K * W) by (apply Z.mul_pos_pos; lia).
  assert (HKTW : 0 < K * T * W) by (apply Z.mul_pos_pos; lia).
  assert (b1 : K * W <= 2 * (H * T * W)).
  { replace (2 * (H * T * W)) with ((2 * (H * T)) * W) by ring.
    apply Z.mul_le_mono_nonneg_r; lia. }
  assert (b2 : 3 * (H * T * W) + T <= 2 * (K * T)).
  { replace (3 * (H * T * W) + T) with ((3 * (H * W) + 1) * T) by ring.
    replace (2 * (K * T)) with ((2 * K) * T) by ring.
    apply Z.mul_le_mono_nonneg_r; lia. }
  assert (b3 : r * (K * T) <= K * T * W - K * T).
  { replace (K * T * W - K * T) with ((W - 1) * (K * T)) by ring.
    apply Z.mul_le_mono_nonneg_r; lia. }
  assert (b4 : 0 <= r * (K * T)) by (apply Z.mul_nonneg_nonneg; lia).
  assert (b5 : H * T * W < K * T * W).
  { replace (H * T * W) with (H * (T * W)) by ring.
    replace (K * T * W) with (K * (T * W)) by ring.
    apply Z.mul_lt_mono_pos_r; [apply Z.mul_pos_pos|]; lia. }
  assert (b6 : r <> 0 -> K * T <= r * (K * T)).
  { intros. replace (K * T) with (1 * (K * T)) at 1 by ring.
    apply Z.mul_le_mono_nonneg_r; lia. }
  (* bounds of m2 on the scale K * W *)
  assert (Hup : m2 * (K * W) < (f + 1) * T * (K * W)).
  { replace ((f + 1) * T * (K * W)) with (f * (K * T * W) + K * T * W) by ring.
    replace (m2 * (K * W)) with (m2 * K * W) by ring. lia. }
  assert (Hlo0 : ((f - 1) * T - 1) * (K * W) < m2 * (K * W)).
  { replace (((f - 1) * T - 1) * (K * W)) with (f * (K * T * W) - K * T * W - K * W) by ring.
    replace (m2 * (K * W)) with (m2 * K * W) by ring. lia. }
  assert (Hlo1 : r <> 0 -> (f * T - 1) * (K * W) < m2 * (K * W)).
  { intros Hr0. specialize (b6 Hr0).
    replace ((f * T - 1) * (K * W)) with (f * (K * T * W) - K * W) by ring.
    replace (m2 * (K * W)) with (m2 * K * W) by ring. lia. }
  apply Z.mul_lt_mono_pos_r in Hup, Hlo0; try lia.
  assert (Hdiv0 : f - 1 <= m2 / T) by (apply Z.div_le_lower_bound; lia).
  assert (Hdiv1 : m2 / T < f + 1) by (apply Z.div_lt_upper_bound; lia).
  split; [lia|].
  intros Hr0. specialize (Hlo1 Hr0). apply Z.mul_lt_mono_pos_r in Hlo1; try lia.
  assert (f <= m2 / T) by (apply Z.div_le_lower_bound; lia). lia.
Qed.

Lemma div_300_spec W :
  0 < W ->
  exists k, 0 <= k /\ expo (div_int 300 W) = - k
    /\ 2 ^ 52 * W <= 300 * 2 ^ k < 2 ^ 53 * W
    /\ - W <= 2 * (mant (div_int 300 W) * W - 300 * 2 ^ k) <= W.
Proof.
  intros HW. unfold div_int.
  set (e := expo (round 300 W)).
  assert (He : e <= 0).
  { destruct (Z.le_gt_cases e 0) as [|Hpos]; [done|exfalso].
    destruct (round_spec 300 W e 0 ltac:(lia) HW ltac:(lia) ltac:(lia) ltac:(lia))
      as [_ [Hlo _]].
    assert (1 <= 2 ^ e) by (apply Z.lt_pred_le, Z.pow_pos_nonneg; lia).
    change (2 ^ 52) with 4503599627370496 in Hlo. nia. }
  exists (- e). split; [lia|]. split; [lia|].
  destruct (round_spec 300 W 0 (- e) ltac:(lia) HW ltac:(lia) ltac:(lia) ltac:(lia))
    as [Hm Hn].
  change (2 ^ 0) with 1 in *. rewrite Z.mul_1_r in *.
  split; [done|]. rewrite Hm. apply rne_spec. lia.
Qed.

Lemma of_int_spec H :
  0 < H < 2 ^ 53 ->
  exists k, 0 <= k /\ expo (of_int H) = - k /\ mant (of_int H) = H * 2 ^ k.
Proof.
  intros HH. unfold of_int.
  set (e := expo (round H 1)).
  assert (He : e <= 0).
  { destruct (Z.le_gt_cases e 0) as [|Hpos]; [done|exfalso].
    destruct (round_spec H 1 e 0 ltac:(lia) ltac:(lia) ltac:(lia) ltac:(lia) ltac:(lia))
      as [_ [Hlo _]].
    assert (2 ^ 1 <= 2 ^ e) by (apply Z.pow_le_mono_r; lia).
    change (2 ^ 52) with 4503599627370496 in Hlo.
    change (2 ^ 53) with 9007199254740992 in HH.
    change (2 ^ 1) with 2 in *. change (2 ^ 0) with 1 in *. lia. }
  exists (- e). split; [lia|]. split; [lia|].
  destruct (round_spec H 1 0 (- e) ltac:(lia) ltac:(lia) ltac:(lia) ltac:(lia) ltac:(lia))
    as [Hm _].
  rewrite Hm. change (1 * 2 ^ 0) with 1. apply rne_1.
Qed.

(** [int(H * (300 / W))] is the quotient of [H * 300] by [W], or one less
    when the division is exact. *)
Lemma height_spec W H :
  0 < W -> 0 < H < 2 ^ 31 ->
  let h := to_int (mul (of_int H) (div_int 300 W)) in
  (H * 300) / W - 1 <= h <= (H * 300) / W
  /\ ((H * 300) mod W <> 0 -> h = (H * 300) / W).
Proof.
  intros HW HH.
  destruct (div_300_spec W HW) as (k1 & Hk1 & He1 & HB & HA).
  destruct (of_int_spec H) as (kh & Hkh & Heh & Hmh).
  { change (2 ^ 31) with 2147483648 in HH.
    change (2 ^ 53) with 9007199254740992. lia. }
  set (m1 := mant (div_int 300 W)) in *.
  assert (HK : 0 < 2 ^ k1) by (by apply Z.pow_pos_nonneg).
  assert (HKh : 0 < 2 ^ kh) by (by apply Z.pow_pos_nonneg).
  assert (Hk1pos : 0 < k1).
  { destruct (Z.eq_dec k1 0) as [->|]; [|lia].
    change (2 ^ 0) with 1 in HB. change (2 ^ 52) with 4503599627370496 in HB. lia. }
  assert (Hm1 : 0 < m1).
  { change (2 ^ 52) with 4503599627370496 in HB.
    assert (0 * W < m1 * W) by lia. apply Z.mul_lt_mono_pos_r in H0; lia. }
  assert (Hm1K : m1 <= 300 * 2 ^ k1).
  { assert (m1 * W < (300 * 2 ^ k1 + 1) * W).
    { assert (300 * 2 ^ k1 * 1 <= 300 * 2 ^ k1 * W)
        by (apply Z.mul_le_mono_nonneg_l; lia). lia. }
    apply Z.mul_lt_mono_pos_r in H0; lia. }
  intros h. subst h. unfold mul. rewrite Heh, He1, Hmh. fold m1.
  destruct (Z.leb_spec 0 (- kh + - k1)) as [|_]; [lia|].
  replace (- (- kh + - k1)) with (kh + k1) by lia.
  rewrite Z.pow_add_r by lia.
  set (m := H * 2 ^ kh * m1). set (D := 2 ^ kh * 2 ^ k1).
  assert (Hm : 0 < m) by (unfold m; repeat apply Z.mul_pos_pos; lia).
  assert (HD : 0 < D) by (unfold D; apply Z.mul_pos_pos; lia).
  set (e2 := expo (round m D)).
  assert (He2 : e2 < 0).
  { destruct (Z.lt_ge_cases e2 0) as [|Hpos]; [done|exfalso].
    destruct (round_spec m D e2 0 Hm HD ltac:(lia) ltac:(lia) ltac:(lia))
      as [_ [Hlo _]].
    assert (1 <= 2 ^ e2) by (apply Z.lt_pred_le, Z.pow_pos_nonneg; lia).
    change (2 ^ 0) with 1 in Hlo. rewrite Z.mul_1_r in Hlo.
    assert (D * 1 <= D * 2 ^ e2) by (apply Z.mul_le_mono_nonneg_l; lia).
    assert (Hc : 2 ^ 52 * D <= m) by lia.
    unfold m, D in Hc.
    replace (2 ^ 52 * (2 ^ kh * 2 ^ k1)) with ((2 ^ 52 * 2 ^ k1) * 2 ^ kh) in Hc by ring.
    replace (H * 2 ^ kh * m1) with ((H * m1) * 2 ^ kh) in Hc by ring.
    apply Z.mul_le_mono_pos_r in Hc; [|done].
    assert (H * m1 <= H * (300 * 2 ^ k1)) by (apply Z.mul_le_mono_nonneg_l; lia).
    assert (H * (300 * 2 ^ k1) <= 2147483648 * (300 * 2 ^ k1)).
    { apply Z.mul_le_mono_nonneg_r; [lia|]. change (2 ^ 31) with 2147483648 in HH. lia. }
    change (2 ^ 52) with 4503599627370496 in Hc. lia. }
  destruct (round_spec m D 0 (- e2) Hm HD ltac:(lia) ltac:(lia) ltac:(lia))
    as [Hm2 [Hlo _]].
  fold e2 in Hm2.
  change (2 ^ 0) with 1 in *. rewrite Z.mul_1_r in *.
  assert (HT : 0 < 2 ^ (- e2)) by (apply Z.pow_pos_nonneg; lia).
  unfold to_int. fold e2.
  destruct (Z.leb_spec 0 e2) as [|_]; [lia|].
  rewrite Hm2.
  replace (m * 2 ^ (- e2)) with (2 ^ kh * (H * m1 * 2 ^ (- e2))) by (unfold m; ring).
  unfold D. rewrite rne_scale by lia.
  apply (two_roundings W H (2 ^ k1) (2 ^ (- e2)) m1); try done.
  - unfold m, D in Hlo.
    replace (2 ^ 52 * (2 ^ kh * 2 ^ k1)) with ((2 ^ 52 * 2 ^ k1) * 2 ^ kh) in Hlo by ring.
    replace (H * 2 ^ kh * m1 * 2 ^ (- e2)) with ((H * m1 * 2 ^ (- e2)) * 2 ^ kh) in Hlo by ring.
    by apply Z.mul_le_mono_pos_r in Hlo.
  - apply rne_spec. lia.
Qed.

End FloatFacts.

(** ** The design store *)

Lemma design_doc_wf id payload :
  wf_json (JDict (design_json payload)) = true ->
  wf_json (design_doc id payload) = true.
Proof.
  intros H. unfold design_doc. cbn [wf_json forallb snd] in *.
  rewrite H. by vm_compute.
Qed.

Lemma generated_id_format (r : N) (k : nat) :
  (k <= 32)%nat ->
  String.length (Py.take k (uuid_hex (uuid4 r))) = k
  /\ all_chars is_hex (Py.take k (uuid_hex (uuid4 r))) = true.
Proof.
  intros Hk. split.
  - apply take_length. unfold uuid_hex. by rewrite hex_fixed_length.
  - apply all_chars_take, hex_fixed_is_hex.
Qed.

Lemma split_once_app sep a b :
  all_chars (fun c => negb (Ascii.eqb c sep)) a = true ->
  Py.split_once sep (a +:+ String sep b) = Some (a, b).
Proof.
  induction a as [|c a IH]; simpl.
  - intros _. by rewrite Ascii.eqb_refl.
  - intros [Hc Ha]%andb_true_iff. apply negb_true_iff in Hc.
    by rewrite Hc, IH.
Qed.

Lemma strip_data_uri_prefixed mime b64 :
  all_chars (fun c => negb (Ascii.eqb c ",")) mime = true ->
  strip_data_uri ("data:" +:+ mime +:+ "," +:+ b64) = Ok b64.
Proof.
  intros H. unfold strip_data_uri.
  change (Py.startswith "data:" ("data:" +:+ mime +:+ "," +:+ b64)) with true.
  cbv iota.
  change ("data:" +:+ mime +:+ "," +:+ b64) with (("data:" +:+ mime) +:+ String "," b64).
  rewrite split_once_app; [done|]. simpl. exact H.
Qed.

Lemma strip_data_uri_plain bs :
  strip_data_uri (Base64.b64encode bs) = Ok (Base64.b64encode bs).
Proof. unfold strip_data_uri. by rewrite Base64Facts.b64encode_not_data. Qed.




(** C4. Two saves under one explicit identifier: the fetch that follows
    returns the document of the second payload, and the store is the one
    the second save alone would have left. *)
Theorem C4_resave_overwrites (DESIGNS_DIR id : string) (p1 p2 : SavePayload)
    (r1 r2 : N) (fs : gmap string string) :
  id <> "" ->
  design_id p1 = Some id ->
  design_id p2 = Some id ->
  wf_json (JDict (design_json p2)) = true ->
  let fs1 := snd (save_design DESIGNS_DIR p1 r1 fs) in
  let fs2 := snd (save_design DESIGNS_DIR p2 r2 fs1) in
  fst (get_design DESIGNS_DIR id fs2) = Ok (design_doc id p2)
  /\ field "template_id" (design_doc id p2) = Some (JStr (template_id p2))
  /\ field "design" (design_doc id p2) = Some (JDict (design_json p2))
  /\ fs2 = snd (save_design DESIGNS_DIR p2 r2 fs).
Proof.
  intros Hid H1 H2 Hwf fs1 fs2. subst fs1 fs2. unfold save_design, get_design.
  rewrite H1, H2. cbn [snd fst Py.or_else].
  assert (Ht : Py.truthy id = true) by (by destruct id).
  rewrite Ht, lookup_insert_eq, insert_insert_eq.
  by rewrite JsonFacts.loads_dumps by (by apply design_doc_wf).
Qed.

Lemma C4_witness :
  "d1" <> ""
  /\ fst (get_design "/app/designs" "d1"
            (snd (save_design "/app/designs" sample_resave 2
                    (snd (save_design "/app/designs" sample_save 1 ∅)))))
     = Ok (design_doc "d1" sample_resave).
Proof.
  split; [done|].
  exact (proj1 (C4_resave_overwrites "/app/designs" "d1" sample_save sample_resave 1 2 ∅
                  ltac:(done) eq_refl eq_refl eq_refl)).
Defined.


(** C5. A payload that is the standard base64 text of [bs], alone or after
    a data-URI header ["data:<mime>,"] whose mime part has no comma: the
    header is cut at its first comma, the rest is decoded, the file written
    holds exactly [bs], and the answer names the file, the supplied name or
    a generated ["export_<8 hex digits>.png"]. *)
Theorem C5_export_round_trip (DESIGNS_DIR mime bs payload : string)
    (filename : option string) (r : N) (fs : gmap string string) :
  all_chars (fun c => negb (Ascii.eqb c ",")) mime = true ->
  payload = "data:" +:+ mime +:+ "," +:+ Base64.b64encode bs
  \/ payload = Base64.b64encode bs ->
  strip_data_uri payload = Ok (Base64.b64encode bs)
  /\ Base64.b64decode (Base64.b64encode bs) = Ok bs
  /\ exists fname,
       export_image DESIGNS_DIR payload filename r fs
       = (Ok (JDict [("status", JStr "ok"); ("file", JStr fname)]),
          <[Py.path_join DESIGNS_DIR fname := bs]> fs)
       /\ (forall f, filename = Some f -> f <> "" -> fname = f)
       /\ (filename = None \/ filename = Some "" ->
           exists hex, String.length hex = 8%nat /\ all_chars is_hex hex = true
                       /\ fname = "export_" +:+ hex +:+ ".png").
Proof.
  intros Hmime Hpayload.
  assert (Hstrip : strip_data_uri payload = Ok (Base64.b64encode bs)).
  { destruct Hpayload as [-> | ->];
      [by apply strip_data_uri_prefixed | apply strip_data_uri_plain]. }
  split; [done|]. split; [apply Base64Facts.b64decode_b64encode|].
  exists (Py.or_else filename ("export_" +:+ Py.take 8 (uuid_hex (uuid4 r)) +:+ ".png")).
  split; [|split].
  - unfold export_image. rewrite Hstrip. cbn [mbind result_bind].
    by rewrite Base64Facts.b64decode_b64encode.
  - intros f -> Hf. by destruct f.
  - intros Hnone. exists (Py.take 8 (uuid_hex (uuid4 r))).
    destruct (generated_id_format r 8 ltac:(lia)) as [Hl Hh].
    by destruct Hnone as [-> | ->].
Qed.

Lemma C5_witness :
  all_chars (fun c => negb (Ascii.eqb c ",")) "image/png;base64" = true
  /\ export_image "/app/designs" "data:image/png;base64,iVBORw==" (Some "out.png") 3 ∅
     = (Ok (JDict [("status", JStr "ok"); ("file", JStr "out.png")]),
        {[ "/app/designs/out.png" := String "137" "PNG" ]}).
Proof.
  split; [reflexivity|].
  destruct (C5_export_round_trip "/app/designs" "image/png;base64" (String "137" "PNG")
              "data:image/png;base64,iVBORw==" (Some "out.png") 3 ∅
              eq_refl (or_introl eq_refl)) as (_ & _ & fname & Hexp & Hname & _).
  rewrite Hexp. rewrite (Hname "out.png" eq_refl ltac:(done)). reflexivity.
Defined.

(** C10. Exports and designs share one directory.  After a design [id] is
    saved, an export named ["<id>.json"] replaces its file with the decoded
    bytes; after such an export, a save of [id] replaces the exported file
    with the design document; in both orders every other path of the store
    is as it was before the two calls. *)
Theorem C10_shared_directory (DESIGNS_DIR id payload_b64 data : string)
    (payload : SavePayload) (r r' : N) (fs : gmap string string) :
  id <> "" ->
  design_id payload = Some id ->
  strip_data_uri payload_b64 ≫= Base64.b64decode = Ok data ->
  let filename := Some (id +:+ ".json") in
  let saved_then_exported :=
    snd (export_image DESIGNS_DIR payload_b64 filename r'
           (snd (save_design DESIGNS_DIR payload r fs))) in
  let exported_then_saved :=
    snd (save_design DESIGNS_DIR payload r
           (snd (export_image DESIGNS_DIR payload_b64 filename r' fs))) in
  saved_then_exported !! design_path DESIGNS_DIR id = Some data
  /\ exported_then_saved !! design_path DESIGNS_DIR id
     = Some (Json.dumps (design_doc id payload))
  /\ (forall p, p <> design_path DESIGNS_DIR id ->
        saved_then_exported !! p = fs !! p /\ exported_then_saved !! p = fs !! p).
Proof.
  intros Hid Hpid Hdata filename s_e e_s. subst s_e e_s filename.
  unfold export_image, save_design. rewrite Hdata, Hpid.
  assert (Ht : Py.truthy id = true) by (by destruct id).
  assert (Ht' : Py.truthy (id +:+ ".json") = true) by (by destruct id).
  cbn [snd fst Py.or_else]. rewrite Ht, Ht'. fold (design_path DESIGNS_DIR id).
  split; [apply lookup_insert_eq|]. split; [apply lookup_insert_eq|].
  intros p Hp. by rewrite !lookup_insert_ne.
Qed.

Lemma C10_witness :
  "d1" <> ""
  /\ snd (export_image "/app/designs" "data:image/png;base64,iVBORw==" (Some "d1.json") 9
            (snd (save_design "/app/designs" sample_save 1 ∅)))
     !! "/app/designs/d1.json" = Some (String "137" "PNG").
Proof.
  split; [done|].
  exact (proj1 (C10_shared_directory "/app/designs" "d1" "data:image/png;base64,iVBORw=="
                  (String "137" "PNG") sample_save 1 9 ∅
                  ltac:(done) eq_refl eq_refl)).
Defined.

(** ** Templates *)

Lemma endswith_nil s : Py.endswith "" s = true.
Proof. induction s as [|c s IH]; simpl; auto. Qed.

(** Two suffixes of one string: one is a suffix of the other. *)
Lemma endswith_comparable p q s :
  Py.endswith p s = true -> Py.endswith q s = true ->
  Py.endswith p q = true \/ Py.endswith q p = true.
Proof.
  induction s as [|c s IH].
  - intros Hp%String.eqb_eq _. subst p. left. apply endswith_nil.
  - intros Hp Hq.
    destruct (String.eqb_spec p (String c s)) as [->|Hne]; [by right|].
    destruct (String.eqb_spec q (String c s)) as [->|Hne']; [by left|].
    cbn [Py.endswith] in Hp, Hq.
    apply String.eqb_neq in Hne, Hne'. rewrite Hne in Hp. rewrite Hne' in Hq.
    by apply IH.
Qed.

Lemma endswith_disjoint p q s :
  Py.endswith p q = false -> Py.endswith q p = false ->
  Py.endswith p s = true -> Py.endswith q s = false.
Proof.
  intros Hpq Hqp Hp. destruct (Py.endswith q s) eqn:Hq; [|done].
  destruct (endswith_comparable p q s Hp Hq); congruence.
Qed.

Section TemplateFacts.

Variables TEMPLATE_IMAGES_DIR PREVIEWS_DIR : string.

Lemma glob_count (entries : list string) :
  length (glob_ext TEMPLATE_IMAGES_DIR entries "jpg"
          ++ glob_ext TEMPLATE_IMAGES_DIR entries "jpeg"
          ++ glob_ext TEMPLATE_IMAGES_DIR entries "png")
  = length (List.filter is_template_image entries).
Proof.
  unfold glob_ext. rewrite !length_app, !length_map.
  induction entries as [|name entries IH]; [done|].
  cbn [List.filter]. unfold is_template_image at 1.
  change ("." +:+ "jpg") with ".jpg" in *.
  change ("." +:+ "jpeg") with ".jpeg" in *.
  change ("." +:+ "png") with ".png" in *.
  destruct (Py.startswith "." name); cbn [negb andb]; [exact IH|].
  destruct (Py.endswith ".jpg" name) eqn:E1.
  { rewrite (endswith_disjoint ".jpg" ".jpeg" name eq_refl eq_refl E1).
    rewrite (endswith_disjoint ".jpg" ".png" name eq_refl eq_refl E1).
    cbn [orb length]. lia. }
  destruct (Py.endswith ".jpeg" name) eqn:E2.
  { rewrite (endswith_disjoint ".jpeg" ".png" name eq_refl eq_refl E2).
    cbn [orb length]. lia. }
  destruct (Py.endswith ".png" name); cbn [orb length]; lia.
Qed.

Lemma attempt_ok img_path w : fst (attempt PREVIEWS_DIR img_path w) = Ok tt.
Proof.
  unfold attempt, try_except.
  destruct (make_preview _ img_path w) as [[[]|e] w']; reflexivity.
Qed.

(** The loop never stops early: it is one attempt per path, in order. *)
Lemma for_in_attempts paths w :
  for_in paths (attempt PREVIEWS_DIR) w
  = (Ok tt, fold_left (fun w p => snd (attempt PREVIEWS_DIR p w)) paths w).
Proof.
  revert w. induction paths as [|p paths IH]; intros w; [done|].
  cbn [for_in fold_left]. pose proof (attempt_ok p w) as H.
  destruct (attempt PREVIEWS_DIR p w) as [[[]|e] w']; [apply IH|done].
Qed.

End TemplateFacts.

Lemma height_of_flat_image q : Float.to_int (Float.mul (Float.of_int 0) q) = 0.
Proof.
  unfold Float.mul, Float.of_int. cbn [Float.round Z.eqb Float.mant Float.expo].
  rewrite Z.mul_0_l. by destruct (0 <=? 0 + Float.expo q).
Qed.

Lemma make_preview_stdout (PREVIEWS_DIR img_path : string) (w : world) :
  stdout (snd (make_preview PREVIEWS_DIR img_path w)) = stdout w.
Proof.
  unfold make_preview, save_jpeg.
  destruct (image_open img_path w) as [img|e]; [|done].
  destruct (preview_size img ≫= resize img) as [preview|e]; [|done].
  by destruct (jpeg_mode (img_mode preview)).
Qed.

(** C2, as the code has it.  When a preview is generated for an image of
    width [W] and height [H], its width is 300 and its height is
    [H * (300 / W)] computed in double precision and truncated: the quotient
    of [H * 300] by [W] rounded down, or one less than that quotient when
    the division is exact; it is never rounded up. *)
Theorem C2_preview_height_truncated (PREVIEWS_DIR img_path : string) (img : image)
    (w : world) :
  images w !! img_path = Some img ->
  0 < width img < 2 ^ 31 ->
  0 <= height img < 2 ^ 31 ->
  fst (make_preview PREVIEWS_DIR img_path w) = Ok tt ->
  exists h,
    previews (snd (make_preview PREVIEWS_DIR img_path w))
      !! Py.path_join PREVIEWS_DIR (preview_filename (Py.basename img_path))
    = Some (Jpeg 300 h 85)
    /\ preview_size img = Ok (300, h)
    /\ (height img * 300) / width img - 1 <= h <= (height img * 300) / width img
    /\ ((height img * 300) mod width img <> 0 -> h = (height img * 300) / width img).
Proof.
  intros Himg HW HH Hok.
  unfold make_preview, image_open in *. rewrite Himg in *.
  unfold preview_size in *.
  destruct (Z.eqb_spec (width img) 0) as [|_]; [lia|].
  cbn [mbind result_bind] in *.
  set (h := Float.to_int _) in *.
  unfold resize in *. cbn [fst snd] in *.
  change (300 <? 1) with false in *. cbn [orb] in *.
  destruct (Z.ltb_spec h 1) as [|Hh]; [done|].
  unfold save_jpeg in *. cbn [img_mode width height] in *.
  destruct (jpeg_mode (img_mode img)); [|done].
  exists h. cbn [snd previews]. rewrite lookup_insert_eq.
  split; [done|]. split; [done|].
  assert (Hpos : 0 < height img).
  { destruct (Z.eq_dec (height img) 0) as [E|]; [|lia].
    subst h. rewrite E, height_of_flat_image in Hh. lia. }
  apply (FloatFacts.height_spec (width img) (height img)); lia.
Qed.

Lemma C2_witness :
  exists h,
    previews (snd (make_preview "/app/previews" "/app/templates_images/a.jpg" sample_world))
      !! "/app/previews/preview_a.jpg" = Some (Jpeg 300 h 85)
    /\ 224 <= h <= 225.
Proof.
  destruct (C2_preview_height_truncated "/app/previews" "/app/templates_images/a.jpg"
              {| width := 400; height := 301; img_mode := RGB |} sample_world
              eq_refl ltac:(done) ltac:(done) eq_refl)
    as (h & Hfile & _ & Hh & _).
  exists h. split; [exact Hfile|exact Hh].
Defined.

(** C2, as the specification words it, fails on a 400 x 301 image: the
    preview is 225 pixels high and the rounded quotient is 226. *)
Lemma C2_counterexample :
  previews (snd (make_preview "/app/previews" "/app/templates_images/a.jpg" sample_world))
    !! "/app/previews/preview_a.jpg" = Some (Jpeg 300 225 85)
  /\ rounded_height 400 301 = 226.
Proof. split; by vm_compute. Qed.

(** C6. With [n] image files in the template directory, the listing has
    [min n 8] entries and the generator makes [min n 8] attempts: both work
    on the first eight files of the enumeration (the [*.jpg] matches, then
    [*.jpeg], then [*.png], each in directory order). *)
Theorem C6_at_most_eight (TEMPLATE_IMAGES_DIR PREVIEWS_DIR : string)
    (entries : list string) (w : world) :
  let n := length (List.filter is_template_image entries) in
  let enumeration :=
    glob_ext TEMPLATE_IMAGES_DIR entries "jpg"
    ++ glob_ext TEMPLATE_IMAGES_DIR entries "jpeg"
    ++ glob_ext TEMPLATE_IMAGES_DIR entries "png" in
  let surfaced := firstn 8 enumeration in
  length enumeration = n
  /\ length surfaced = Nat.min n 8
  /\ ((n <= 8)%nat -> surfaced = enumeration)
  /\ ((8 < n)%nat -> length surfaced = 8%nat)
  /\ index TEMPLATE_IMAGES_DIR entries w = map (describe w) surfaced
  /\ length (index TEMPLATE_IMAGES_DIR entries w) = Nat.min n 8
  /\ create_template_previews TEMPLATE_IMAGES_DIR PREVIEWS_DIR entries w
     = (Ok tt, fold_left (fun w p => snd (attempt PREVIEWS_DIR p w)) surfaced w).
Proof.
  intros n enumeration surfaced.
  assert (Hn : length enumeration = n) by apply glob_count.
  assert (Hs : length surfaced = Nat.min n 8).
  { unfold surfaced. rewrite length_firstn, Hn. lia. }
  split; [done|]. split; [done|]. split; [|split; [|split; [|split]]].
  - intros Hle. unfold surfaced. apply firstn_all2. lia.
  - lia.
  - reflexivity.
  - unfold index. rewrite length_map. exact Hs.
  - apply for_in_attempts.
Qed.

(** C7 fails on a name with two dots: the code keeps the text before the
    first dot, the specification the text before the extension, and two
    templates that differ after the first dot get one preview name. *)
Theorem C7_name_with_two_dots :
  preview_filename "poster.v2.jpg" = "preview_poster.jpg"
  /\ preview_name_by_extension "poster.v2.jpg" = "preview_poster.v2.jpg"
  /\ preview_filename "poster.v1.jpg" = preview_filename "poster.v2.jpg".
Proof. by repeat split. Qed.

(** The generator and the listing derive the preview name the same way. *)
Lemma preview_name_agreement (TEMPLATE_IMAGES_DIR PREVIEWS_DIR img_path : string)
    (img : image) (w : world) :
  images w !! img_path = Some img ->
  fst (make_preview PREVIEWS_DIR img_path w) = Ok tt ->
  exists name,
    te_preview_url (describe w img_path) = "/previews/" +:+ name
    /\ is_Some (previews (snd (make_preview PREVIEWS_DIR img_path w))
                !! Py.path_join PREVIEWS_DIR name).
Proof.
  intros Himg Hok. exists (preview_filename (Py.basename img_path)). split.
  - unfold describe. by destruct (image_open img_path w).
  - unfold make_preview, image_open in *. rewrite Himg in *.
    destruct (preview_size img ≫= resize img) as [preview|e]; [|done].
    unfold save_jpeg in *.
    destruct (jpeg_mode (img_mode preview)); [|done].
    cbn [snd previews]. rewrite lookup_insert_eq. by eexists.
Qed.

Lemma attempt_failed (PREVIEWS_DIR p : string) (e : exn) (w : world) :
  fst (make_preview PREVIEWS_DIR p w) = Raise e ->
  snd (attempt PREVIEWS_DIR p w) = snd (print (p, e) (snd (make_preview PREVIEWS_DIR p w))).
Proof.
  unfold attempt, try_except.
  destruct (make_preview PREVIEWS_DIR p w) as [[[]|e'] w']; cbn [fst snd]; [done|].
  by intros [= ->].
Qed.

(** C8. The generator never raises.  It makes one attempt per surfaced
    image, in order; when the attempt on [p] fails with [e], the line for
    [p] is printed and the images after [p] are attempted from there. *)
Theorem C8_failures_are_skipped (TEMPLATE_IMAGES_DIR PREVIEWS_DIR : string)
    (entries : list string) (w : world) :
  let run := fold_left (fun w p => snd (attempt PREVIEWS_DIR p w)) in
  fst (create_template_previews TEMPLATE_IMAGES_DIR PREVIEWS_DIR entries w) = Ok tt
  /\ snd (create_template_previews TEMPLATE_IMAGES_DIR PREVIEWS_DIR entries w)
     = run (image_files TEMPLATE_IMAGES_DIR entries) w
  /\ forall l1 p l2 e,
       image_files TEMPLATE_IMAGES_DIR entries = l1 ++ p :: l2 ->
       fst (make_preview PREVIEWS_DIR p (run l1 w)) = Raise e ->
       let failed := snd (make_preview PREVIEWS_DIR p (run l1 w)) in
       let logged := snd (print (p, e) failed) in
       stdout logged = stdout (run l1 w) ++ [(p, e)]
       /\ snd (create_template_previews TEMPLATE_IMAGES_DIR PREVIEWS_DIR entries w)
          = run l2 logged.
Proof.
  intros run. unfold create_template_previews. rewrite for_in_attempts.
  split; [done|]. split; [done|].
  intros l1 p l2 e Hfiles Hfail.
  split.
  - cbn [print snd stdout]. by rewrite make_preview_stdout.
  - cbn [snd]. rewrite Hfiles. fold run. unfold run at 1.
    rewrite fold_left_app. cbn [fold_left]. fold run. f_equal.
    by apply attempt_failed.
Qed.

Lemma C8_witness :
  fst (create_template_previews "/app/templates_images" "/app/previews"
         sample_entries sample_world) = Ok tt
  /\ stdout (snd (create_template_previews "/app/templates_images" "/app/previews"
                    sample_entries sample_world))
     = [("/app/templates_images/broken.jpg", OSError);
        ("/app/templates_images/c.png", OSError)]
  /\ previews (snd (create_template_previews "/app/templates_images" "/app/previews"
                      sample_entries sample_world))
     !! "/app/previews/preview_a.jpg" = Some (Jpeg 300 225 85).
Proof.
  destruct (C8_failures_are_skipped "/app/templates_images" "/app/previews"
              sample_entries sample_world) as (Hok & Hrun & _).
  split; [exact Hok|]. rewrite Hrun. split; by vm_compute.
Defined.

(** * Further properties of the handlers and of the generator *)

(** * Further properties *)

(** ** Identifiers *)

Lemma append_snoc_inj (a b : string) (x y : ascii) :
  a +:+ String x "" = b +:+ String y "" -> a = b /\ x = y.
Proof.
  revert b. induction a as [|c a IH]; intros [|d b]; simpl; intros H.
  - by injection H as ->.
  - injection H as _ H. by destruct b.
  - injection H as _ H. by destruct a.
  - injection H as -> H. destruct (IH b H) as [-> ->]. done.
Qed.

Lemma append_inj_r (a b c : string) : a +:+ c = b +:+ c -> a = b.
Proof.
  revert b. induction a as [|x a IH]; intros [|y b] H; simpl in H.
  - done.
  - apply (f_equal String.length) in H. simpl in H. rewrite append_length in H. lia.
  - apply (f_equal String.length) in H. simpl in H. rewrite append_length in H. lia.
  - injection H as -> H. by rewrite (IH b H).
Qed.

Lemma append_inj_l (a b c : string) : a +:+ b = a +:+ c -> b = c.
Proof. induction a as [|x a IH]; simpl; intros H; [done|]. injection H; auto. Qed.

Lemma hex_digit_inj n m :
  (n < 16)%N -> (m < 16)%N -> hex_digit n = hex_digit m -> n = m.
Proof.
  intros Hn Hm H.
  pose proof (Base64Facts.forallb_below2
                (fun a b => negb (Ascii.eqb (hex_digit a) (hex_digit b)) || (a =? b)%N)
                16 16 ltac:(by vm_compute) n m Hn Hm) as Hc.
  cbv beta in Hc. rewrite H, Ascii.eqb_refl in Hc. by apply N.eqb_eq.
Qed.

Lemma hex_fixed_inj k n m :
  hex_fixed k n = hex_fixed k m -> (n mod 16 ^ N.of_nat k = m mod 16 ^ N.of_nat k)%N.
Proof.
  revert n m. induction k as [|k IH]; intros n m H.
  - by rewrite !N.mod_1_r.
  - cbn [hex_fixed] in H. apply append_snoc_inj in H as [H1 H2].
    apply IH in H1.
    apply hex_digit_inj in H2; try (apply N.mod_lt; lia).
    rewrite Nat2N.inj_succ, N.pow_succ_r'.
    rewrite !N.Div0.mod_mul_r. congruence.
Qed.

Lemma take_app_le k (a b : string) :
  (k <= String.length a)%nat -> Py.take k (a +:+ b) = Py.take k a.
Proof.
  revert a. induction k as [|k IH]; intros a H.
  - by destruct a, b.
  - destruct a as [|c a]; simpl in *; [lia|]. rewrite IH; [done|lia].
Qed.

Lemma take_all (s : string) : Py.take (String.length s) s = s.
Proof. induction s as [|c s IH]; simpl; [done|]. by rewrite IH. Qed.

Lemma take_hex_fixed k j n :
  Py.take k (hex_fixed (k + j) n) = hex_fixed k (n / 16 ^ N.of_nat j)%N.
Proof.
  revert n. induction j as [|j IH]; intros n.
  - rewrite Nat.add_0_r, N.div_1_r.
    rewrite <- (hex_fixed_length k n) at 1. apply take_all.
  - rewrite Nat.add_succ_r. cbn [hex_fixed].
    rewrite take_app_le by (rewrite hex_fixed_length; lia).
    rewrite IH, Nat2N.inj_succ, N.pow_succ_r', N.Div0.div_div. done.
Qed.

Lemma testbit_high (c j : N) : (c < 2 ^ j)%N -> N.testbit c j = false.
Proof.
  intros H. rewrite N.testbit_eqb, N.div_small by done. reflexivity.
Qed.

(** The forced version and variant bits lie below bit 80. *)
Lemma uuid4_top_bits r : (uuid4 r / 2 ^ 80 = (r mod 2 ^ 128) / 2 ^ 80)%N.
Proof.
  rewrite <- !N.shiftr_div_pow2. apply N.bits_inj. intros i.
  rewrite !N.shiftr_spec by lia. unfold uuid4.
  assert (Hc : forall c, (c < 2 ^ 80)%N -> N.testbit c (i + 80) = false).
  { intros c Hc. apply testbit_high.
    eapply N.lt_le_trans; [exact Hc|]. apply N.pow_le_mono_r; lia. }
  rewrite !N.lor_spec, !N.ldiff_spec, !N.lor_spec, !N.ldiff_spec.
  rewrite (Hc (N.shiftl 0xc000 48)), (Hc (N.shiftl 0x8000 48)),
    (Hc (N.shiftl 0xf000 64)), (Hc (N.shiftl 4 76)) by (by vm_compute).
  by rewrite !orb_false_r, !andb_true_r.
Qed.

Lemma generated_id_bits r :
  Py.take 12 (uuid_hex (uuid4 r)) = hex_fixed 12 ((r mod 2 ^ 128) / 2 ^ 80)%N.
Proof.
  unfold uuid_hex. change 32%nat with (12 + 20)%nat.
  rewrite take_hex_fixed. change (16 ^ N.of_nat 20)%N with (2 ^ 80)%N.
  by rewrite uuid4_top_bits.
Qed.

(** X1. The identifier a save generates is ["design_"] and the 48 most
    significant bits of the random draw in hexadecimal: two draws give one
    identifier exactly when they agree on those bits, and the version and
    variant bits of the UUID never reach it. *)
Theorem X1_generated_id_is_top_48_bits (DESIGNS_DIR tid : string)
    (dj : list (string * json)) (r1 r2 : N) (fs1 fs2 : gmap string string) :
  let p := {| design_id := None; template_id := tid; design_json := dj |} in
  let top r := ((r mod 2 ^ 128) / 2 ^ 80)%N in
  fst (save_design DESIGNS_DIR p r1 fs1)
  = Ok (JDict [("status", JStr "ok");
               ("design_id", JStr ("design_" +:+ hex_fixed 12 (top r1)))])
  /\ (fst (save_design DESIGNS_DIR p r1 fs1) = fst (save_design DESIGNS_DIR p r2 fs2)
      <-> top r1 = top r2).
Proof.
  intros p top. unfold save_design. cbn [fst Py.or_else design_id p].
  rewrite !generated_id_bits. fold (top r1) (top r2). split; [done|].
  remember (hex_fixed 12 (top r1)) as h1 eqn:E1.
  remember (hex_fixed 12 (top r2)) as h2 eqn:E2. split.
  - intros [= H]. rewrite E1, E2 in H. apply hex_fixed_inj in H.
    assert (Hlt : forall r, (top r < 16 ^ N.of_nat 12)%N).
    { intros r. unfold top. change (16 ^ N.of_nat 12)%N with (2 ^ 48)%N.
      apply N.Div0.div_lt_upper_bound.
      change (2 ^ 80 * 2 ^ 48)%N with (2 ^ 128)%N. apply N.mod_lt. lia. }
    by rewrite !N.mod_small in H by apply Hlt.
  - intros H. by rewrite E1, E2, H.
Qed.

(** ** Paths of the designs directory *)

Lemma startswith_slash_app (a b : string) :
  Py.startswith "/" a = false -> Py.startswith "/" b = false ->
  Py.startswith "/" (a +:+ b) = false.
Proof. destruct a as [|c a]; simpl; [done|]. by destruct (Ascii.eqb "/" c). Qed.

Lemma path_join_inj (dir a b : string) :
  Py.startswith "/" a = false -> Py.startswith "/" b = false ->
  Py.path_join dir a = Py.path_join dir b -> a = b.
Proof.
  unfold Py.path_join. intros -> ->.
  destruct (String.eqb dir "" || Py.endswith "/" dir).
  - apply append_inj_l.
  - intros H. apply append_inj_l in H. by apply (append_inj_l "/") in H.
Qed.

Lemma design_path_inj (DESIGNS_DIR a b : string) :
  Py.startswith "/" a = false -> Py.startswith "/" b = false ->
  design_path DESIGNS_DIR a = design_path DESIGNS_DIR b -> a = b.
Proof.
  intros Ha Hb H. unfold design_path in H.
  apply path_join_inj in H; try by apply startswith_slash_app.
  by apply append_inj_r in H.
Qed.

Lemma plain_name_not_absolute name :
  plain_name name = true -> Py.startswith "/" name = false.
Proof.
  destruct name as [|c s]; [done|]. unfold plain_name.
  cbn [all_chars Py.startswith].
  intros [Hc _]%andb_true_iff. apply negb_true_iff in Hc.
  by rewrite Ascii.eqb_sym, Hc.
Qed.

(** X2. A save leaves every other design as it was: when the identifier it
    answers with and another identifier differ and neither holds a slash,
    fetching the other one gives the same answer before and after. *)
Theorem X2_save_keeps_other_designs (DESIGNS_DIR id other : string) (p : SavePayload)
    (r : N) (fs : gmap string string) :
  fst (save_design DESIGNS_DIR p r fs)
  = Ok (JDict [("status", JStr "ok"); ("design_id", JStr id)]) ->
  plain_name id = true ->
  plain_name other = true ->
  other <> id ->
  fst (get_design DESIGNS_DIR other (snd (save_design DESIGNS_DIR p r fs)))
  = fst (get_design DESIGNS_DIR other fs).
Proof.
  unfold save_design. set (used := Py.or_else _ _). cbn [fst snd].
  clearbody used. intros [= ->] Hid%plain_name_not_absolute
    Hother%plain_name_not_absolute Hne.
  assert (Hp : design_path DESIGNS_DIR id <> design_path DESIGNS_DIR other).
  { intros H. apply design_path_inj in H; [congruence|done|done]. }
  unfold get_design. cbn zeta. rewrite lookup_insert_ne by done.
  destruct (fs !! design_path DESIGNS_DIR other) as [text|]; [|done].
  by destruct (Json.loads text).
Qed.

Lemma X2_witness :
  plain_name "d1" = true /\ plain_name "d2" = true /\ "d2" <> "d1"
  /\ fst (get_design "/app/designs" "d2"
            (snd (save_design "/app/designs" sample_save 1
                    {[ "/app/designs/d2.json" := "[]" ]})))
     = fst (get_design "/app/designs" "d2" {[ "/app/designs/d2.json" := "[]" ]}).
Proof.
  split; [done|]. split; [done|]. split; [done|].
  exact (X2_save_keeps_other_designs "/app/designs" "d1" "d2" sample_save 1
           {[ "/app/designs/d2.json" := "[]" ]} eq_refl eq_refl eq_refl ltac:(done)).
Defined.



(** ** Exports *)

(** X4. An export that fails writes nothing: the store is unchanged, and the
    failure is a [ValueError] (a data-URI header without comma, or a
    character that is not ASCII) or a [binascii.Error] (bad padding). *)
Theorem X4_failed_export_writes_nothing (DESIGNS_DIR payload : string)
    (filename : option string) (r : N) (fs : gmap string string) (e : exn) :
  fst (export_image DESIGNS_DIR payload filename r fs) = Raise e ->
  snd (export_image DESIGNS_DIR payload filename r fs) = fs
  /\ (e = ValueError \/ e = BinasciiError)
  /\ (Py.startswith "data:" payload = true -> Py.split_once "," payload = None ->
      e = ValueError).
Proof.
  unfold export_image, strip_data_uri.
  destruct (Py.startswith "data:" payload).
  - destruct (Py.split_once "," payload) as [[header b64]|]; cbn [mbind result_bind].
    + unfold Base64.b64decode. destruct (Base64.is_ascii b64).
      * destruct (Base64.a2b_loop b64 0 0 0); cbn [fst snd]; [done|].
        intros [= <-]. split; [done|]. split; [by right|done].
      * cbn [fst snd]. intros [= <-]. split; [done|]. split; [by left|done].
    + cbn [fst snd]. intros [= <-]. split; [done|]. split; [by left|done].
  - cbn [mbind result_bind]. unfold Base64.b64decode.
    destruct (Base64.is_ascii payload).
    + destruct (Base64.a2b_loop payload 0 0 0); cbn [fst snd]; [done|].
      intros [= <-]. split; [done|]. split; [by right|done].
    + cbn [fst snd]. intros [= <-]. split; [done|]. split; [by left|done].
Qed.

Lemma X4_witness :
  export_image "/app/designs" "data:image/png;base64" None 1 {[ "/app/designs/d1.json" := "[]" ]}
  = (Raise ValueError, {[ "/app/designs/d1.json" := "[]" ]}).
Proof.
  destruct (X4_failed_export_writes_nothing "/app/designs" "data:image/png;base64" None 1
              {[ "/app/designs/d1.json" := "[]" ]} ValueError eq_refl) as (Hfs & _).
  rewrite <- Hfs at 2. reflexivity.
Defined.

Lemma a2b_loop_keep s q l p :
  Base64.a2b_loop (keep_chars b64_significant s) q l p = Base64.a2b_loop s q l p.
Proof.
  revert q l p. induction s as [|c s IH]; intros q l p; [done|].
  cbn [keep_chars]. unfold b64_significant.
  destruct (Ascii.eqb c "=") eqn:Ec.
  - cbn [orb Base64.a2b_loop]. rewrite Ec, !IH. done.
  - cbn [orb]. destruct (Base64.a2b c) as [v|] eqn:Ea.
    + cbn [Base64.a2b_loop]. rewrite Ec, Ea, !IH. done.
    + cbn [Base64.a2b_loop]. rewrite Ec, Ea. apply IH.
Qed.

Lemma is_ascii_keep p s :
  Base64.is_ascii s = true -> Base64.is_ascii (keep_chars p s) = true.
Proof.
  unfold Base64.is_ascii. induction s as [|c s IH]; [done|].
  cbn [list_ascii_of_string forallb keep_chars].
  intros [Hc Hs]%andb_true_iff. destruct (p c); [|by apply IH].
  cbn [list_ascii_of_string forallb]. by rewrite Hc, IH.
Qed.

Lemma all_chars_keep p s : all_chars p (keep_chars p s) = true.
Proof.
  induction s as [|c s IH]; [done|]. cbn [keep_chars].
  destruct (p c) eqn:E; [|done]. cbn [all_chars]. by rewrite E, IH.
Qed.

Lemma startswith_data_needs_colon p s :
  all_chars p s = true -> p ":"%char = false -> Py.startswith "data:" s = false.
Proof.
  intros H Hp.
  destruct s as [|c1 [|c2 [|c3 [|c4 [|c5 s]]]]];
    cbn [Py.startswith]; rewrite ?andb_false_r; try done.
  cbn [all_chars] in H. repeat (apply andb_true_iff in H as [? H]).
  destruct (Ascii.eqb_spec ":" c5) as [<-|]; [congruence|by rewrite ?andb_false_r].
Qed.

(** X5. The decoding is lenient: in a payload of ASCII characters without
    data-URI header, the characters outside the base64 alphabet (spaces,
    line breaks, punctuation) are skipped, so the export is the same as for
    the payload without them. *)
Theorem X5_export_skips_foreign_characters (DESIGNS_DIR payload : string)
    (filename : option string) (r : N) (fs : gmap string string) :
  Base64.is_ascii payload = true ->
  Py.startswith "data:" payload = false ->
  export_image DESIGNS_DIR payload filename r fs
  = export_image DESIGNS_DIR (keep_chars b64_significant payload) filename r fs.
Proof.
  intros Hascii Hplain. unfold export_image, strip_data_uri.
  rewrite Hplain.
  rewrite (startswith_data_needs_colon b64_significant)
    by (by rewrite ?all_chars_keep).
  cbn [mbind result_bind]. unfold Base64.b64decode.
  by rewrite Hascii, is_ascii_keep, a2b_loop_keep.
Qed.

Lemma X5_witness :
  export_image "/app/designs" "aGVs
bG8h IQ==" (Some "a.bin") 1 ∅
  = export_image "/app/designs" "aGVsbG8hIQ==" (Some "a.bin") 1 ∅.
Proof.
  exact (X5_export_skips_foreign_characters "/app/designs" "aGVs
bG8h IQ==" (Some "a.bin") 1 ∅ eq_refl eq_refl).
Defined.

(** X6. A design can be planted by an export: after the export of the
    base64 text of a JSON document under the name ["<id>.json"], fetching
    [id] returns that document, whether or not [id] was ever saved. *)
Theorem X6_export_plants_a_design (DESIGNS_DIR id : string) (doc : json)
    (r : N) (fs : gmap string string) :
  wf_json doc = true ->
  fst (get_design DESIGNS_DIR id
         (snd (export_image DESIGNS_DIR (Base64.b64encode (Json.dumps doc))
                 (Some (id +:+ ".json")) r fs)))
  = Ok doc.
Proof.
  intros Hwf. unfold export_image.
  rewrite strip_data_uri_plain. cbn [mbind result_bind].
  rewrite Base64Facts.b64decode_b64encode. cbn [snd Py.or_else].
  assert (Ht : Py.truthy (id +:+ ".json") = true) by (by destruct id).
  rewrite Ht. unfold get_design, design_path. rewrite lookup_insert_eq.
  by rewrite JsonFacts.loads_dumps.
Qed.

Lemma X6_witness :
  wf_json (JDict [("design_id", JStr "other"); ("n", JInt 1)]) = true
  /\ fst (get_design "/app/designs" "d9"
            (snd (export_image "/app/designs"
                    (Base64.b64encode
                       (Json.dumps (JDict [("design_id", JStr "other"); ("n", JInt 1)])))
                    (Some "d9.json") 1 ∅)))
     = Ok (JDict [("design_id", JStr "other"); ("n", JInt 1)]).
Proof.
  split; [reflexivity|].
  exact (X6_export_plants_a_design "/app/designs" "d9"
           (JDict [("design_id", JStr "other"); ("n", JInt 1)]) 1 ∅ eq_refl).
Defined.

(** ** Names and paths of templates *)

Lemma has_slash_app (a b : string) :
  existsb (Ascii.eqb "/"%char) (list_ascii_of_string (a +:+ String "/" b)) = true.
Proof.
  induction a as [|c a IH]; cbn [String.append list_ascii_of_string existsb].
  - by rewrite Ascii.eqb_refl.
  - by rewrite IH, orb_true_r.
Qed.

Lemma plain_name_no_slash name :
  plain_name name = true ->
  existsb (Ascii.eqb "/"%char) (list_ascii_of_string name) = false.
Proof.
  unfold plain_name. induction name as [|c s IH]; [done|].
  cbn [all_chars list_ascii_of_string existsb].
  intros [Hc Hs]%andb_true_iff. rewrite (IH Hs), orb_false_r.
  apply negb_true_iff in Hc. by rewrite Ascii.eqb_sym.
Qed.

Lemma basename_plain name : plain_name name = true -> Py.basename name = name.
Proof.
  intros H. destruct name as [|c s]; [done|]. cbn [Py.basename].
  pose proof (plain_name_no_slash _ H) as Hn.
  cbn [list_ascii_of_string existsb] in Hn.
  apply orb_false_iff in Hn as [Hc Hs]. rewrite Hs.
  by rewrite Ascii.eqb_sym, Hc.
Qed.

Lemma basename_after_slash a name :
  plain_name name = true -> Py.basename (a +:+ String "/" name) = name.
Proof.
  intros H. induction a as [|c a IH].
  - cbn [String.append Py.basename]. rewrite (plain_name_no_slash _ H).
    by rewrite Ascii.eqb_refl.
  - change (String c a +:+ String "/" name) with (String c (a +:+ String "/" name)).
    cbn [Py.basename]. by rewrite has_slash_app.
Qed.

Lemma endswith_split p s : Py.endswith p s = true -> exists a, s = a +:+ p.
Proof.
  induction s as [|c s IH]; cbn [Py.endswith].
  - intros ->%String.eqb_eq. by exists "".
  - intros [->%String.eqb_eq | H]%orb_true_iff; [by exists ""|].
    destruct (IH H) as [a ->]. by exists (String c a).
Qed.

Lemma append_assoc (a b c : string) : (a +:+ b) +:+ c = a +:+ (b +:+ c).
Proof. induction a as [|x a IH]; simpl; [done|]. by rewrite IH. Qed.

(** [os.path.basename(os.path.join(dir, name)) == name] for a bare name. *)
Lemma basename_path_join dir name :
  plain_name name = true -> Py.basename (Py.path_join dir name) = name.
Proof.
  intros H. unfold Py.path_join. rewrite (plain_name_not_absolute _ H).
  destruct (String.eqb_spec dir "") as [->|_]; cbn [orb].
  - by apply basename_plain.
  - destruct (Py.endswith "/" dir) eqn:E.
    + apply endswith_split in E as [a ->]. rewrite append_assoc.
      by apply basename_after_slash.
    + by apply basename_after_slash.
Qed.

Lemma in_firstn {A} (x : A) n l : In x (firstn n l) -> In x l.
Proof.
  revert l. induction n as [|n IH]; intros [|y l]; simpl; try done.
  intros [->|H]; [by left|right; by apply IH].
Qed.

Section ListingFacts.

Variable TEMPLATE_IMAGES_DIR : string.

Lemma image_files_names entries :
  image_files TEMPLATE_IMAGES_DIR entries
  = map (Py.path_join TEMPLATE_IMAGES_DIR)
        (firstn 8 (glob_names entries "jpg" ++ glob_names entries "jpeg"
                   ++ glob_names entries "png")).
Proof.
  unfold image_files, glob_ext. fold (glob_names entries "jpg") (glob_names entries "jpeg")
    (glob_names entries "png").
  by rewrite <- !map_app, firstn_map.
Qed.

Lemma glob_names_in entries ext name :
  In name (glob_names entries ext) ->
  In name entries /\ Py.startswith "." name = false
  /\ Py.endswith ("." +:+ ext) name = true.
Proof.
  unfold glob_names. rewrite filter_In. intros [Hin [H1 H2]%andb_true_iff].
  by apply negb_true_iff in H1.
Qed.

Lemma describe_id w name :
  plain_name name = true ->
  te_id (describe w (Py.path_join TEMPLATE_IMAGES_DIR name)) = name.
Proof.
  intros H. unfold describe. rewrite (basename_path_join _ _ H).
  by destruct (image_open _ w).
Qed.

(** X7. When the directory holds bare names, the listing identifies each
    template by its file name: the ids are the first eight matches, each is
    a visible entry of the directory with one of the three extensions, and
    the two URLs of an entry are built from its id. *)
Theorem X7_listing_ids (entries : list string) (w : world) :
  Forall (fun name => plain_name name = true) entries ->
  map te_id (index TEMPLATE_IMAGES_DIR entries w)
  = firstn 8 (glob_names entries "jpg" ++ glob_names entries "jpeg"
              ++ glob_names entries "png")
  /\ forall e, In e (index TEMPLATE_IMAGES_DIR entries w) ->
       In (te_id e) entries
       /\ is_template_image (te_id e) = true
       /\ te_image_url e = "/templates_images/" +:+ te_id e
       /\ te_preview_url e = "/previews/" +:+ preview_filename (te_id e).
Proof.
  intros Hplain. unfold index. rewrite image_files_names.
  set (names := firstn 8 _).
  assert (Hnames : forall name, In name names ->
            In name entries /\ is_template_image name = true).
  { intros name Hin. apply in_firstn in Hin.
    unfold is_template_image.
    rewrite !in_app_iff in Hin.
    destruct Hin as [H|[H|H]]; apply glob_names_in in H as (Hin & Hh & He);
      simpl in He; rewrite Hh, He; by rewrite ?orb_true_r. }
  assert (Hpl : forall name, In name names -> plain_name name = true).
  { intros name Hin. rewrite Forall_forall in Hplain.
    apply Hplain, list_elem_of_In, Hnames, Hin. }
  split.
  - rewrite !map_map. rewrite <- (map_id names) at 2.
    apply map_ext_in. intros name Hin. by apply describe_id, Hpl.
  - intros e Hin. rewrite map_map, in_map_iff in Hin.
    destruct Hin as (name & <- & Hin).
    pose proof (describe_id w name (Hpl _ Hin)) as Hid.
    destruct (Hnames _ Hin) as [H1 H2]. rewrite Hid.
    split; [done|]. split; [done|].
    unfold describe in *. rewrite (basename_path_join _ _ (Hpl _ Hin)).
    by destruct (image_open _ w).
Qed.

End ListingFacts.

Lemma X7_witness :
  Forall (fun name => plain_name name = true) sample_entries
  /\ map te_id (index "/app/templates_images" sample_entries sample_world)
     = ["broken.jpg"; "a.jpg"; "c.png"].
Proof.
  assert (H : Forall (fun name => plain_name name = true) sample_entries)
    by (repeat constructor).
  split; [exact H|].
  exact (proj1 (X7_listing_ids "/app/templates_images" sample_entries sample_world H)).
Defined.

Lemma with_stdout_nil w : with_stdout w [] = w.
Proof. destruct w. unfold with_stdout. simpl. by rewrite app_nil_r. Qed.

Lemma with_stdout_app w a b : with_stdout (with_stdout w a) b = with_stdout w (a ++ b).
Proof. unfold with_stdout. simpl. by rewrite app_assoc. Qed.

Lemma describe_with_stdout w lines p : describe (with_stdout w lines) p = describe w p.
Proof. reflexivity. Qed.

Section PageFacts.

Variable TEMPLATE_IMAGES_DIR : string.

Lemma describe_logged_spec p w :
  describe_logged p w
  = (Ok (describe w p),
     with_stdout w (if readable w p then [] else [(Py.basename p, OSError)])).
Proof.
  unfold describe_logged, describe, try_except, image_size, image_open, readable.
  destruct (images w !! p) as [img|]; cbn [fst snd]; [|done].
  by rewrite with_stdout_nil.
Qed.

Lemma collect_describe_logged l w :
  collect l describe_logged w
  = (Ok (map (describe w) l),
     with_stdout w (map (fun p => (Py.basename p, OSError))
                        (List.filter (fun p => negb (readable w p)) l))).
Proof.
  revert w. induction l as [|p l IH]; intros w.
  - cbn [collect map List.filter]. by rewrite with_stdout_nil.
  - cbn [collect]. rewrite describe_logged_spec, IH.
    cbn [map List.filter]. rewrite with_stdout_app.
    assert (Hr : forall q, readable (with_stdout w (if readable w p then []
                                      else [(Py.basename p, OSError)])) q = readable w q)
      by done.
    rewrite (filter_ext _ (fun q => negb (readable w q))) by (intros q; by rewrite Hr).
    erewrite (map_ext (describe (with_stdout w _)) (describe w)) by done.
    by destruct (readable w p).
Qed.

(** X8. The listing handler returns one entry per surfaced template, with
    the width and height of the image when it can be read and 880 x 1020
    otherwise; it prints one line per unreadable template, in order, and
    changes neither the images nor the previews. *)
Theorem X8_listing_dimensions (entries : list string) (w : world) :
  index_handler TEMPLATE_IMAGES_DIR entries w
  = (Ok (index TEMPLATE_IMAGES_DIR entries w),
     {| images := images w;
        previews := previews w;
        stdout := stdout w
                  ++ map (fun p => (Py.basename p, OSError))
                       (List.filter (fun p => negb (readable w p))
                          (image_files TEMPLATE_IMAGES_DIR entries)) |})
  /\ map (fun e => (te_width e, te_height e)) (index TEMPLATE_IMAGES_DIR entries w)
     = map (fun p => match images w !! p with
                     | Some img => (width img, height img)
                     | None => (880, 1020)
                     end) (image_files TEMPLATE_IMAGES_DIR entries).
Proof.
  split.
  - unfold index_handler. by rewrite collect_describe_logged.
  - unfold index. rewrite map_map. apply map_ext. intros p.
    unfold describe, image_open. by destruct (images w !! p).
Qed.

(** X9. The editor agrees with the listing on a readable template and not
    on an unreadable one.  For an entry of the listing (the directory
    holding bare names), the editor opened on its id shows the same image
    URL; it shows the size of the image when it can be read, as the listing
    does, and otherwise 1080 x 1350 with a printed line, where the listing
    says 880 x 1020. *)
Theorem X9_editor_and_listing (entries : list string) (w : world) (e : template_entry) :
  Forall (fun name => plain_name name = true) entries ->
  In e (index TEMPLATE_IMAGES_DIR entries w) ->
  exists page,
    fst (editor TEMPLATE_IMAGES_DIR (te_id e) w) = Ok page
    /\ ep_template_id page = te_id e
    /\ ep_image_url page = te_image_url e
    /\ match images w !! Py.path_join TEMPLATE_IMAGES_DIR (te_id e) with
       | Some img =>
           (ep_width page, ep_height page) = (width img, height img)
           /\ (te_width e, te_height e) = (width img, height img)
           /\ snd (editor TEMPLATE_IMAGES_DIR (te_id e) w) = w
       | None =>
           (ep_width page, ep_height page) = (1080, 1350)
           /\ (te_width e, te_height e) = (880, 1020)
           /\ stdout (snd (editor TEMPLATE_IMAGES_DIR (te_id e) w))
              = stdout w ++ [(te_id e, OSError)]
       end.
Proof.
  intros Hplain Hin. unfold index in Hin. rewrite image_files_names in Hin.
  rewrite map_map, in_map_iff in Hin. destruct Hin as (name & <- & Hin).
  assert (Hpl : plain_name name = true).
  { rewrite Forall_forall in Hplain. apply Hplain, list_elem_of_In.
    apply in_firstn in Hin. rewrite !in_app_iff in Hin.
    destruct Hin as [H|[H|H]]; by apply glob_names_in in H as (? & _). }
  unfold describe, editor, try_except, image_size, image_open.
  rewrite (basename_path_join _ _ Hpl).
  destruct (images w !! Py.path_join TEMPLATE_IMAGES_DIR name) as [img|] eqn:E;
    cbn [te_id fst snd]; rewrite E; eexists; repeat split.
Qed.

End PageFacts.

Lemma X9_witness :
  Forall (fun name => plain_name name = true) sample_entries
  /\ exists page,
       fst (editor "/app/templates_images" "broken.jpg" sample_world) = Ok page
       /\ (ep_width page, ep_height page) = (1080, 1350).
Proof.
  assert (H : Forall (fun name => plain_name name = true) sample_entries)
    by (repeat constructor).
  split; [exact H|].
  destruct (X9_editor_and_listing "/app/templates_images" sample_entries sample_world
              (describe sample_world "/app/templates_images/broken.jpg") H
              ltac:(by left)) as (page & Hp & _ & _ & Hd).
  exists page. split; [exact Hp|]. exact (proj1 Hd).
Defined.

Section GeneratorFacts.

Variable PREVIEWS_DIR : string.

(** What one pass of the loop body can do to the world. *)
Lemma attempt_frame p w :
  images (snd (attempt PREVIEWS_DIR p w)) = images w
  /\ (forall path, path <> preview_path PREVIEWS_DIR p ->
        previews (snd (attempt PREVIEWS_DIR p w)) !! path = previews w !! path)
  /\ (forall path, is_Some (previews w !! path) ->
        is_Some (previews (snd (attempt PREVIEWS_DIR p w)) !! path))
  /\ (forall path a b q,
        previews (snd (attempt PREVIEWS_DIR p w)) !! path = Some (Jpeg a b q) ->
        previews w !! path = Some (Jpeg a b q)
        \/ (path = preview_path PREVIEWS_DIR p /\ a = 300 /\ 1 <= b /\ q = 85))
  /\ (stdout (snd (attempt PREVIEWS_DIR p w)) = stdout w
      \/ exists e, preview_error e
                   /\ stdout (snd (attempt PREVIEWS_DIR p w)) = stdout w ++ [(p, e)]).
Proof.
  unfold attempt, try_except, make_preview, image_open, preview_error.
  fold (preview_path PREVIEWS_DIR p).
  destruct (images w !! p) as [img|]; cbn [fst snd print images previews stdout];
    [|repeat split; eauto 6].
  unfold preview_size.
  destruct (width img =? 0); cbn [mbind result_bind print snd images previews stdout];
    [repeat split; eauto 6|].
  set (h := Float.to_int _). unfold resize. cbn [fst snd].
  change (300 <? 1) with false. cbn [orb].
  destruct (Z.ltb_spec h 1) as [|Hh]; cbn [print snd images previews stdout];
    [repeat split; eauto 6|].
  unfold save_jpeg. cbn [img_mode width height].
  destruct (jpeg_mode (img_mode img)); cbn [print snd images previews stdout].
  - split; [done|]. split; [|split; [|split; [|by left]]].
    + intros path Hne. by rewrite lookup_insert_ne.
    + intros path Hsome.
      destruct (decide (preview_path PREVIEWS_DIR p = path)) as [<-|Hne].
      * rewrite lookup_insert_eq. by eexists.
      * by rewrite lookup_insert_ne.
    + intros path a b q.
      destruct (decide (preview_path PREVIEWS_DIR p = path)) as [<-|Hne].
      * rewrite lookup_insert_eq. intros [= <- <- <-]. right. by repeat split.
      * rewrite lookup_insert_ne by done. by left.
  - split; [done|]. split; [|split; [|split; [|right; eauto]]].
    + intros path Hne.
      destruct (previews w !! preview_path PREVIEWS_DIR p); [|done].
      by rewrite lookup_insert_ne.
    + intros path Hsome.
      destruct (previews w !! preview_path PREVIEWS_DIR p) eqn:E; [|done].
      destruct (decide (preview_path PREVIEWS_DIR p = path)) as [<-|Hne].
      * rewrite lookup_insert_eq. by eexists.
      * by rewrite lookup_insert_ne.
    + intros path a b q.
      destruct (previews w !! preview_path PREVIEWS_DIR p) eqn:E; [|by left].
      destruct (decide (preview_path PREVIEWS_DIR p = path)) as [<-|Hne].
      * by rewrite lookup_insert_eq.
      * rewrite lookup_insert_ne by done. by left.
Qed.

Lemma run_frame paths w :
  images (fold_left (fun w p => snd (attempt PREVIEWS_DIR p w)) paths w) = images w
  /\ (forall path, (forall p, In p paths -> path <> preview_path PREVIEWS_DIR p) ->
        previews (fold_left (fun w p => snd (attempt PREVIEWS_DIR p w)) paths w) !! path
        = previews w !! path)
  /\ (forall path, is_Some (previews w !! path) ->
        is_Some (previews (fold_left (fun w p => snd (attempt PREVIEWS_DIR p w)) paths w) !! path))
  /\ (forall path a b q,
        previews (fold_left (fun w p => snd (attempt PREVIEWS_DIR p w)) paths w) !! path
        = Some (Jpeg a b q) ->
        previews w !! path = Some (Jpeg a b q)
        \/ ((exists p, In p paths /\ path = preview_path PREVIEWS_DIR p)
            /\ a = 300 /\ 1 <= b /\ q = 85))
  /\ (exists lines,
        stdout (fold_left (fun w p => snd (attempt PREVIEWS_DIR p w)) paths w) = stdout w ++ lines
        /\ (length lines <= length paths)%nat
        /\ Forall (fun line => In (fst line) paths /\ preview_error (snd line)) lines).
Proof.
  revert w. induction paths as [|p paths IH]; intros w.
  - cbn [fold_left]. repeat split; try done.
    + intros path a b q H. by left.
    + exists []. by rewrite app_nil_r.
  - cbn [fold_left].
    destruct (attempt_frame p w) as (Hi & Hother & Hkeep & Hjpeg & Hout).
    destruct (IH (snd (attempt PREVIEWS_DIR p w)))
      as (Hi' & Hother' & Hkeep' & Hjpeg' & lines & Hout' & Hlen & Hall).
    split; [congruence|]. split; [|split; [|split]].
    + intros path Hne. rewrite Hother' by (intros q Hq; apply Hne; by right).
      apply Hother, Hne. by left.
    + intros path Hsome. by apply Hkeep', Hkeep.
    + intros path a b q H. destruct (Hjpeg' _ _ _ _ H) as [H0|((p' & Hin & ->) & Hs)].
      * destruct (Hjpeg _ _ _ _ H0) as [H1|(-> & Hs)]; [by left|right].
        split; [|done]. exists p. split; [by left|done].
      * right. split; [|done]. exists p'. split; [by right|done].
    + assert (Hall' : Forall (fun line => In (fst line) (p :: paths)
                                         /\ preview_error (snd line)) lines).
      { eapply Forall_impl; [exact Hall|]. intros line [H1 H2]. split; [by right|done]. }
      destruct Hout as [Hout|(e & He & Hout)].
      * exists lines. rewrite Hout', Hout. split; [done|]. split; [simpl; lia|done].
      * exists ((p, e) :: lines). rewrite Hout', Hout, <- app_assoc.
        split; [done|]. split; [simpl; lia|].
        constructor; [|done]. split; [by left|done].
Qed.

End GeneratorFacts.

(** X10. What the generator leaves alone.  It never changes what the
    template directory holds; it removes no file of the previews directory
    and touches only the preview paths of the surfaced images; and it prints
    at most one line per surfaced image, so at most eight, each naming a
    surfaced image. *)
Theorem X10_generator_frame (TEMPLATE_IMAGES_DIR PREVIEWS_DIR : string)
    (entries : list string) (w : world) :
  let after := snd (create_template_previews TEMPLATE_IMAGES_DIR PREVIEWS_DIR entries w) in
  let surfaced := image_files TEMPLATE_IMAGES_DIR entries in
  images after = images w
  /\ (forall path,
        ~ (exists p, In p surfaced /\ path = preview_path PREVIEWS_DIR p) ->
        previews after !! path = previews w !! path)
  /\ (forall path, is_Some (previews w !! path) -> is_Some (previews after !! path))
  /\ exists lines,
       stdout after = stdout w ++ lines
       /\ (length lines <= 8)%nat
       /\ Forall (fun line => In (fst line) surfaced) lines.
Proof.
  intros after surfaced. unfold after, create_template_previews.
  rewrite for_in_attempts. cbn [snd]. fold surfaced.
  destruct (run_frame PREVIEWS_DIR surfaced w)
    as (Hi & Hother & Hkeep & _ & lines & Hout & Hlen & Hall).
  split; [done|]. split; [|split; [done|]].
  - intros path Hne. apply Hother. intros p Hin ->. apply Hne. by exists p.
  - exists lines. split; [done|]. split.
    + etransitivity; [exact Hlen|]. unfold surfaced, image_files. apply firstn_le_length.
    + eapply Forall_impl; [exact Hall|]. by intros line [Hin _].
Qed.

(** X11. Every JPEG found in the previews directory after the generator ran
    was either there before, unchanged, or is the preview of a surfaced
    image: 300 wide, at least 1 high, written at quality 85. *)
Theorem X11_previews_are_300_wide (TEMPLATE_IMAGES_DIR PREVIEWS_DIR : string)
    (entries : list string) (w : world) (path : string) (a b q : Z) :
  previews (snd (create_template_previews TEMPLATE_IMAGES_DIR PREVIEWS_DIR entries w))
    !! path = Some (Jpeg a b q) ->
  previews w !! path = Some (Jpeg a b q)
  \/ ((exists p, In p (image_files TEMPLATE_IMAGES_DIR entries)
                 /\ path = preview_path PREVIEWS_DIR p)
      /\ a = 300 /\ 1 <= b /\ q = 85).
Proof.
  unfold create_template_previews. rewrite for_in_attempts. cbn [snd].
  apply run_frame.
Qed.

Lemma X11_witness :
  previews sample_world !! "/app/previews/preview_a.jpg" = Some (Jpeg 300 225 85)
  \/ ((exists p, In p (image_files "/app/templates_images" sample_entries)
                 /\ "/app/previews/preview_a.jpg" = preview_path "/app/previews" p)
      /\ 300 = 300 /\ 1 <= 225 /\ 85 = 85).
Proof.
  apply (X11_previews_are_300_wide "/app/templates_images" "/app/previews"
           sample_entries sample_world "/app/previews/preview_a.jpg" 300 225 85).
  by vm_compute.
Defined.

(** The height the generator computes is at least 1 as soon as the image
    is less than 300 times as wide as it is high. *)
Lemma preview_height_positive W H :
  0 < W -> 0 < H < 2 ^ 31 -> W < H * 300 ->
  1 <= Float.to_int (Float.mul (Float.of_int H) (Float.div_int 300 W)).
Proof.
  intros HW HH Hlt.
  destruct (FloatFacts.height_spec W H HW HH) as [[Hlo _] Hexact].
  destruct (Z.eq_dec ((H * 300) mod W) 0) as [E|E].
  - apply Z.mod_divide in E; [|lia]. destruct E as [k Hk].
    assert (2 <= k) by nia.
    rewrite Hk, Z.div_mul in Hlo by lia. lia.
  - rewrite (Hexact E). apply Z.div_le_lower_bound; lia.
Qed.

(** ... and is below 1 when the image is more than 300 times as wide. *)
Lemma preview_height_zero W H :
  0 < W -> 0 <= H < 2 ^ 31 -> H * 300 < W ->
  Float.to_int (Float.mul (Float.of_int H) (Float.div_int 300 W)) < 1.
Proof.
  intros HW HH Hlt.
  destruct (Z.eq_dec H 0) as [->|Hne]; [by rewrite height_of_flat_image|].
  destruct (FloatFacts.height_spec W H HW ltac:(lia)) as [[_ Hhi] _].
  rewrite Z.div_small in Hhi by lia. lia.
Qed.



(** X13. An image more than 300 times as wide as it is high gets no
    preview: the computed height is 0, [resize] raises [ValueError], the
    handler prints the line and the previews directory is left as it was. *)
Theorem X13_too_wide_for_a_preview (PREVIEWS_DIR img_path : string) (img : image)
    (w : world) :
  images w !! img_path = Some img ->
  0 < height img < 2 ^ 31 ->
  height img * 300 < width img ->
  attempt PREVIEWS_DIR img_path w = (Ok tt, with_stdout w [(img_path, ValueError)]).
Proof.
  intros Himg HH Hlt.
  assert (HW : 0 < width img) by lia.
  assert (HH' : 0 <= height img < 2 ^ 31) by (split; [lia|apply HH]).
  pose proof (preview_height_zero _ _ HW HH' Hlt) as Hz.
  unfold attempt, try_except, make_preview, image_open, preview_size.
  rewrite Himg. destruct (Z.eqb_spec (width img) 0) as [|_]; [lia|].
  cbn [mbind result_bind].
  set (h := Float.to_int _) in *.
  unfold resize. cbn [fst snd]. change (300 <? 1) with false. cbn [orb].
  by destruct (Z.ltb_spec h 1) as [_|]; [|lia].
Qed.

Lemma X13_witness :
  attempt "/p" "/t/wide.jpg" sample_gallery
  = (Ok tt, with_stdout sample_gallery [("/t/wide.jpg", ValueError)]).
Proof.
  exact (X13_too_wide_for_a_preview "/p" "/t/wide.jpg"
           {| width := 2000; height := 5; img_mode := RGB |} sample_gallery
           eq_refl ltac:(done) ltac:(done)).
Defined.

(** X14. An image in a mode the JPEG writer rejects (a PNG with an alpha
    channel, a palette image) never gets a preview, whatever its size
    allows: the save raises, the line is printed, a file already at the
    preview path is left empty and none is created, while the listing goes
    on giving that path as the preview URL. *)
Theorem X14_alpha_has_no_preview (PREVIEWS_DIR img_path : string) (img : image)
    (w : world) :
  images w !! img_path = Some img ->
  jpeg_mode (img_mode img) = false ->
  0 < width img ->
  0 < height img < 2 ^ 31 ->
  width img < height img * 300 ->
  let after := snd (attempt PREVIEWS_DIR img_path w) in
  stdout after = stdout w ++ [(img_path, OSError)]
  /\ previews after !! preview_path PREVIEWS_DIR img_path
     = match previews w !! preview_path PREVIEWS_DIR img_path with
       | Some _ => Some Truncated
       | None => None
       end
  /\ (forall a b q,
        previews after !! preview_path PREVIEWS_DIR img_path <> Some (Jpeg a b q))
  /\ te_preview_url (describe after img_path)
     = "/previews/" +:+ preview_filename (Py.basename img_path).
Proof.
  intros Himg Hmode HW HH Hlt after.
  pose proof (preview_height_positive _ _ HW HH Hlt) as Hpos.
  assert (Hafter : after
    = {| images := images w;
         previews := match previews w !! preview_path PREVIEWS_DIR img_path with
                     | Some _ => <[preview_path PREVIEWS_DIR img_path := Truncated]> (previews w)
                     | None => previews w
                     end;
         stdout := stdout w ++ [(img_path, OSError)] |}).
  { unfold after, attempt, try_except, make_preview, image_open, preview_size.
    rewrite Himg. destruct (Z.eqb_spec (width img) 0) as [|_]; [lia|].
    cbn [mbind result_bind].
    set (h := Float.to_int _) in *.
    unfold resize. cbn [fst snd]. change (300 <? 1) with false. cbn [orb].
    destruct (Z.ltb_spec h 1) as [|_]; [lia|].
    unfold save_jpeg. cbn [img_mode width height]. by rewrite Hmode. }
  assert (Hfile : previews after !! preview_path PREVIEWS_DIR img_path
                  = match previews w !! preview_path PREVIEWS_DIR img_path with
                    | Some _ => Some Truncated
                    | None => None
                    end).
  { rewrite Hafter. cbn [previews].
    destruct (previews w !! preview_path PREVIEWS_DIR img_path) eqn:E; [|done].
    by rewrite lookup_insert_eq. }
  split; [by rewrite Hafter|]. split; [done|]. split.
  - intros a b q. rewrite Hfile.
    by destruct (previews w !! preview_path PREVIEWS_DIR img_path).
  - unfold describe. by destruct (image_open img_path after).
Qed.

Lemma X14_witness :
  stdout (snd (attempt "/app/previews" "/app/templates_images/c.png" sample_world))
  = [("/app/templates_images/c.png", OSError)]
  /\ te_preview_url (describe sample_world "/app/templates_images/c.png")
     = "/previews/preview_c.jpg".
Proof.
  destruct (X14_alpha_has_no_preview "/app/previews" "/app/templates_images/c.png"
              {| width := 600; height := 400; img_mode := RGBA |} sample_world
              eq_refl eq_refl ltac:(done) ltac:(done) ltac:(done))
    as (Hout & _ & _ & Hurl).
  split; [exact Hout|exact Hurl].
Defined.

(** A successful body succeeds in every world with the same images, and
    writes the same file. *)
Lemma make_preview_ok_inv (PREVIEWS_DIR p : string) (w : world) :
  fst (make_preview PREVIEWS_DIR p w) = Ok tt ->
  exists h, forall w',
    images w' = images w ->
    attempt PREVIEWS_DIR p w'
    = (Ok tt,
       {| images := images w';
          previews := <[preview_path PREVIEWS_DIR p := Jpeg 300 h 85]> (previews w');
          stdout := stdout w' |}).
Proof.
  unfold attempt, try_except, make_preview, image_open.
  destruct (images w !! p) as [img|] eqn:Himg; [|done].
  destruct (preview_size img ≫= resize img) as [preview|e] eqn:Hsize; [|done].
  unfold save_jpeg at 1.
  destruct (jpeg_mode (img_mode preview)) eqn:Hmode; [|done].
  intros _. exists (height preview). intros w' Hw'.
  rewrite <- Hw' in Himg. rewrite Himg, Hsize. unfold save_jpeg. rewrite Hmode.
  unfold preview_size in Hsize. destruct (width img =? 0); [done|].
  cbn [mbind result_bind] in Hsize. unfold resize in Hsize. cbn [fst snd] in Hsize.
  change (300 <? 1) with false in Hsize. cbn [orb] in Hsize.
  destruct (Float.to_int _ <? 1) in Hsize; [done|].
  injection Hsize as <-. reflexivity.
Qed.

(** X15. Two templates whose names agree before the first dot share one
    preview path, and the later one wins: when its preview can be made, the
    previews directory after both attempts is the one the later attempt
    alone leaves, whatever the earlier one wrote; the listing gives both
    the same preview URL. *)
Theorem X15_shared_preview_last_wins (PREVIEWS_DIR p1 p2 : string) (w : world) :
  Py.split_head "." (Py.basename p1) = Py.split_head "." (Py.basename p2) ->
  fst (make_preview PREVIEWS_DIR p2 w) = Ok tt ->
  preview_path PREVIEWS_DIR p1 = preview_path PREVIEWS_DIR p2
  /\ previews (snd (attempt PREVIEWS_DIR p2 (snd (attempt PREVIEWS_DIR p1 w))))
     = previews (snd (attempt PREVIEWS_DIR p2 w))
  /\ te_preview_url (describe w p1) = te_preview_url (describe w p2).
Proof.
  intros Hstem Hok.
  assert (Hpath : preview_path PREVIEWS_DIR p1 = preview_path PREVIEWS_DIR p2)
    by (unfold preview_path, preview_filename; by rewrite Hstem).
  split; [done|]. split.
  - destruct (make_preview_ok_inv _ _ _ Hok) as (h & Hrun).
    destruct (attempt_frame PREVIEWS_DIR p1 w) as (Hi & Hother & _).
    rewrite (Hrun _ Hi), (Hrun w eq_refl). cbn [snd previews].
    apply map_eq. intros path.
    destruct (decide (preview_path PREVIEWS_DIR p2 = path)) as [<-|Hne].
    + by rewrite !lookup_insert_eq.
    + rewrite !lookup_insert_ne by done. apply Hother. congruence.
  - unfold describe, preview_filename. rewrite Hstem.
    by destruct (image_open p1 w), (image_open p2 w).
Qed.

Lemma X15_witness :
  preview_path "/p" "/t/card.png" = preview_path "/p" "/t/card.jpg"
  /\ previews (snd (attempt "/p" "/t/card.jpg" (snd (attempt "/p" "/t/card.png" sample_gallery))))
     = previews (snd (attempt "/p" "/t/card.jpg" sample_gallery))
  /\ te_preview_url (describe sample_gallery "/t/card.png")
     = te_preview_url (describe sample_gallery "/t/card.jpg").
Proof.
  exact (X15_shared_preview_last_wins "/p" "/t/card.png" "/t/card.jpg" sample_gallery
           eq_refl eq_refl).
Defined.

Lemma split_head_app_sep (sep : ascii) (a b : string) :
  Py.split_head sep (a +:+ String sep b) = Py.split_head sep a.
Proof.
  induction a as [|c a IH]; simpl.
  - by rewrite Ascii.eqb_refl.
  - destruct (Ascii.eqb c sep); [done|by rewrite IH].
Qed.

(** X16. The preview name depends on the text before the first dot of
    the file name and on nothing else: two names get the same preview name
    exactly when they agree up to their first dot, so everything from the
    first dot on, extension included, is ignored. *)
Theorem X16_preview_name_collisions (n1 n2 stem rest : string) :
  (preview_filename n1 = preview_filename n2
   <-> Py.split_head "." n1 = Py.split_head "." n2)
  /\ preview_filename (stem +:+ "." +:+ rest) = preview_filename stem.
Proof.
  split; [split|].
  - unfold preview_filename. intros H. apply append_inj_l in H.
    by apply append_inj_r in H.
  - unfold preview_filename. by intros ->.
  - unfold preview_filename.
    change ("." +:+ rest) with (String "." rest). by rewrite split_head_app_sep.
Qed.

Lemma path_join_suffix (dir a s : string) :
  exists pre, Py.path_join dir (a +:+ s) = pre +:+ s.
Proof.
  unfold Py.path_join. destruct (Py.startswith "/" (a +:+ s)).
  - by exists a.
  - destruct (_ || _).
    + exists (dir +:+ a). by rewrite append_assoc.
    + exists (dir +:+ "/" +:+ a). by rewrite !append_assoc.
Qed.

(** X17. An export under the generated name never touches a design: the
    name ends in [.png] and a design file in [.json], so every design reads
    after the export as it did before. *)
Theorem X17_default_export_spares_designs (DESIGNS_DIR payload id : string) (r : N)
    (fs : gmap string string) :
  fst (get_design DESIGNS_DIR id (snd (export_image DESIGNS_DIR payload None r fs)))
  = fst (get_design DESIGNS_DIR id fs).
Proof.
  unfold export_image.
  destruct (strip_data_uri payload ≫= Base64.b64decode) as [data|e]; [|done].
  cbn [snd Py.or_else]. unfold get_design.
  rewrite lookup_insert_ne.
  { destruct (fs !! design_path DESIGNS_DIR id) as [text|]; [|done].
    by destruct (Json.loads text). }
  unfold design_path.
  destruct (path_join_suffix DESIGNS_DIR id ".json") as (a & ->).
  destruct (path_join_suffix DESIGNS_DIR
              ("export_" +:+ Py.take 8 (uuid_hex (uuid4 r))) ".png") as (b & Hb).
  rewrite append_assoc in Hb. rewrite Hb.
  change ".png" with (".pn" +:+ "g"). change ".json" with (".jso" +:+ "n").
  rewrite <- !append_assoc. intros H. by apply append_snoc_inj in H as [_ [=]].
Qed.

Lemma lower_title_from b s : lower_all (Py.title_from b s) = lower_all s.
Proof.
  revert b. induction s as [|c s IH]; intros b; [done|].
  cbn [Py.title_from lower_all]. rewrite IH. f_equal.
  destruct b; destruct c as [[] [] [] [] [] [] [] []]; reflexivity.
Qed.

Lemma title_from_no_underscore b s :
  all_chars (fun c => negb (Ascii.eqb c "_")) s = true ->
  all_chars (fun c => negb (Ascii.eqb c "_")) (Py.title_from b s) = true.
Proof.
  unfold all_chars. revert b. induction s as [|c s IH]; intros b; [done|].
  cbn [Py.title_from list_ascii_of_string forallb].
  rewrite !andb_true_iff. intros [Hc Hs]. split; [|by apply IH].
  revert Hc. destruct b; destruct c as [[] [] [] [] [] [] [] []]; done.
Qed.

Lemma replace_no_underscore s :
  all_chars (fun c => negb (Ascii.eqb c "_")) (Py.replace "_" " " s) = true.
Proof.
  unfold all_chars. induction s as [|c s IH]; [done|].
  cbn [Py.replace list_ascii_of_string forallb]. rewrite IH, andb_true_r.
  by destruct (Ascii.eqb_spec c "_") as [->|]; [|destruct (Ascii.eqb_spec c "_")].
Qed.

Lemma replace_length a b s : String.length (Py.replace a b s) = String.length s.
Proof. induction s as [|c s IH]; simpl; [done|by rewrite IH]. Qed.

Lemma title_from_length b s : String.length (Py.title_from b s) = String.length s.
Proof. revert b. induction s as [|c s IH]; intros b; simpl; [done|by rewrite IH]. Qed.

(** X18. The display name of a listed template with an ASCII file name is
    that name without its extension, underscores turned into spaces, up to
    letter case: it has no underscore, the length of the root, and the same
    characters as the root once both are lower-cased. *)
Theorem X18_display_name (w : world) (img_path : string) :
  Base64.is_ascii (Py.basename img_path) = true ->
  let root := Py.splitext_root (Py.basename img_path) in
  let name := te_name (describe w img_path) in
  all_chars (fun c => negb (Ascii.eqb c "_")) name = true
  /\ String.length name = String.length root
  /\ lower_all name = lower_all (Py.replace "_" " " root).
Proof.
  intros _ root name.
  assert (Hname : name = Py.title (Py.replace "_" " " root))
    by (unfold name, describe; by destruct (image_open img_path w)).
  rewrite Hname. unfold Py.title. split; [|split].
  - apply title_from_no_underscore, replace_no_underscore.
  - by rewrite title_from_length, replace_length.
  - apply lower_title_from.
Qed.

Lemma X18_witness :
  te_name (describe sample_world "/app/templates_images/summer_SALE_2x.png")
  = "Summer Sale 2X"
  /\ lower_all "Summer Sale 2X" = lower_all "summer SALE 2x".
Proof.
  split; [reflexivity|].
  exact (proj2 (proj2 (X18_display_name sample_world
                         "/app/templates_images/summer_SALE_2x.png" eq_refl))).
Defined.

Module JsonTextFacts.
Import Json.

Lemma plain_indent level rest :
  all_chars is_plain_text (indent level rest) = all_chars is_plain_text rest.
Proof. induction level as [|l IH]; [done|]. cbn [indent all_chars]. by rewrite IH. Qed.

Lemma plain_newline_indent level rest :
  all_chars is_plain_text (newline_indent level rest) = all_chars is_plain_text rest.
Proof. unfold newline_indent. cbn [all_chars]. by rewrite plain_indent. Qed.

Lemma plain_emit_uint d rest :
  all_chars is_plain_text (emit_uint d rest) = all_chars is_plain_text rest.
Proof. induction d; cbn [emit_uint all_chars]; by rewrite ?IHd. Qed.

Lemma plain_emit_int n rest :
  all_chars is_plain_text (emit_int n rest) = all_chars is_plain_text rest.
Proof.
  unfold emit_int. destruct (Z.to_int n); cbn [all_chars]; by rewrite plain_emit_uint.
Qed.

Lemma plain_emit_char c rest :
  all_chars is_plain_text (emit_char c rest) = all_chars is_plain_text rest.
Proof. destruct c as [[] [] [] [] [] [] [] []]; reflexivity. Qed.

Lemma plain_emit_chars s rest :
  all_chars is_plain_text (emit_chars s rest) = all_chars is_plain_text rest.
Proof.
  induction s as [|c s IH]; [done|]. cbn [emit_chars]. by rewrite plain_emit_char.
Qed.

Lemma plain_emit_str s rest :
  all_chars is_plain_text (emit_str s rest) = all_chars is_plain_text rest.
Proof. unfold emit_str. cbn [all_chars]. by rewrite plain_emit_chars. Qed.

Lemma plain_emit n :
  forall v level rest, (jsize v <= n)%nat ->
    all_chars is_plain_text (emit level v rest) = all_chars is_plain_text rest.
Proof.
  induction n as [|n IH]; intros v level rest Hn.
  { destruct v; simpl in Hn; lia. }
  destruct v as [| [] | z | s | [|x xs] | [|[k x] kvs]]; try reflexivity.
  - apply plain_emit_int.
  - apply plain_emit_str.
  - rewrite JsonFacts.emit_list. cbn [jsize] in Hn. simpl in Hn.
    cbn [all_chars]. change (is_plain_text "[") with true. cbn [andb].
    rewrite plain_newline_indent, IH by lia.
    assert (Hle : (list_sum (map (fun x => S (jsize x)) xs) <= n)%nat) by lia.
    clear Hn. induction xs as [|y xs IHxs]; cbn [emit_items all_chars]; simpl in Hle.
    + by rewrite plain_newline_indent.
    + change (is_plain_text ",") with true. cbn [andb].
      rewrite plain_newline_indent, IH by lia. apply IHxs. lia.
  - rewrite JsonFacts.emit_dict. cbn [jsize] in Hn. simpl in Hn.
    cbn [all_chars]. change (is_plain_text "{") with true. cbn [andb].
    rewrite plain_newline_indent, plain_emit_str. cbn [all_chars].
    change (is_plain_text ":") with true. change (is_plain_text " ") with true.
    cbn [andb]. rewrite IH by lia.
    assert (Hle : (list_sum (map (fun kv => S (jsize (snd kv))) kvs) <= n)%nat) by lia.
    clear Hn.
    induction kvs as [|[k' y] kvs IHxs]; cbn [emit_members all_chars]; simpl in Hle.
    + by rewrite plain_newline_indent.
    + change (is_plain_text ",") with true. cbn [andb].
      rewrite plain_newline_indent, plain_emit_str. cbn [all_chars].
      change (is_plain_text ":") with true. change (is_plain_text " ") with true.
      cbn [andb]. rewrite IH by lia. apply IHxs. lia.
Qed.

Lemma plain_dumps v : all_chars is_plain_text (dumps v) = true.
Proof. unfold dumps. by rewrite (plain_emit (jsize v)). Qed.

End JsonTextFacts.

(** X19. Whatever characters the design holds, the file a save writes is
    plain text: printable ASCII characters and newlines only (the encoder
    escapes the rest), so writing it in UTF-8 cannot fail on a character. *)
Theorem X19_saved_file_is_plain_text (DESIGNS_DIR : string) (p : SavePayload) (r : N)
    (fs : gmap string string) :
  exists id text,
    fst (save_design DESIGNS_DIR p r fs)
    = Ok (JDict [("status", JStr "ok"); ("design_id", JStr id)])
    /\ snd (save_design DESIGNS_DIR p r fs) !! design_path DESIGNS_DIR id = Some text
    /\ all_chars is_plain_text text = true.
Proof.
  unfold save_design. eexists _, _. split; [reflexivity|]. cbn [snd].
  split; [apply lookup_insert_eq|apply JsonTextFacts.plain_dumps].
Qed.
